(** * The shared-function call pipeline of custodiajs-core

    A shallow embedding of
    [kernelmodules/mainmodules/rpc/function_call.go] and the properties of
    its parameter marshalling, request-object construction and engine-loop
    task bodies.

    Conventions of the embedding.
    - A Go function that may return an [error] or hit a run-time panic
      returns a [GoResult]: [Ok], [Err] (the returned error) or [Fault]
      (the panic value).
    - Calls into the JavaScript engine binding (v8go) whose outcome the
      source cannot predict are fields of an [Engine] record and calls into
      the kernel's event loop are fields of a [Kernel] record; every theorem
      quantifies over them.
    - Pointers held in slices and structs are modelled by the value pointed
      to (they are assumed non-nil), except where the source itself tests a
      pointer against nil. *)

From Stdlib Require Import ZArith List String Ascii Bool Lia DecimalString.
From stdpp Require Import base option list strings gmap.

#[local] Set Warnings "-register-all".
Local Open Scope string_scope.
Local Open Scope list_scope.

(** ** Go errors, panics and results *)

(** An [error] value.  [*types.SpecificError] is the typed error of the
    repository, which the submitting functions return unchanged; anything
    else is an error carrying only its text ([fmt.Errorf], [errors.New]). *)
Inductive GoError : Type :=
| SpecificError (msg : string)
| ErrorString (msg : string).

(** [err.Error()] *)
Definition ErrorText (e : GoError) : string :=
  match e with
  | SpecificError msg => msg
  | ErrorString msg => msg
  end.

(** The error constructors of package [utils] that the source calls.  The
    package is not part of the files under study, so its functions are
    taken as they are. *)
Record Utils : Type := {
  V8ObjectWritingError : GoError;
  V8ObjectInstanceCreatingError : GoError;
  MakeV8Error : string -> GoError -> GoError;
  MakeRequestTypeIsNotHttpRequest : string -> GoError;
  MakeUnkownMethodeError : string -> GoError
}.

(** [fmt.Errorf(prefix + err.Error())]; the text is taken as it is. *)
Definition Errorf (text : string) : GoError := ErrorString text.

(** What stops the running function for good: a run-time error of Go, the
    argument of [panic], or a fatal error of the engine, which ends the
    process and cannot be recovered. *)
Inductive GoPanic : Type :=
| IndexOutOfRange (index len : nat)
| NilDereference
| PanicString (msg : string)
| PanicError (e : GoError)
| EngineAbort.

Inductive GoResult (A : Type) : Type :=
| Ok (a : A)
| Err (e : GoError)
| Fault (p : GoPanic).
Arguments Ok {A} a.
Arguments Err {A} e.
Arguments Fault {A} p.

(** ** Values *)

(** The dynamically typed [Value interface{}] of a request parameter. *)
Inductive GoValue : Type :=
| GoNil
| GoBool (b : bool)
| GoNumber (n : Z)
| GoString (s : string)
| GoSlice (elems : list GoValue)
| GoMap (fields : list (string * GoValue))
| GoBytes (bytes : list Z).

(** The Go functions handed to the engine as function templates.  The
    methods of the request context are named after the source. *)
Inductive HostCallback : Type :=
| resolveFunctionCallbackV8
| rejectFunctionCallbackV8
| isConnected
| funcFinal
| throwProm
| proxyShield_ConsoleLog
| proxyShield_ErrorLog
| proxyShield_ClearInterval
| proxyShield_ClearTimeout
| proxyShield_SetInterval
| proxyShield_SetTimeout
| proxyShield_NewPromise
| testWait.

(** Engine values.  An object is the ordered list of the properties set on
    it; a number is one with an integral value; a promise is a handle into
    the engine's heap. *)
Inductive V8Value : Type :=
| V8Undefined
| V8Boolean (b : bool)
| V8Number (n : Z)
| V8String (s : string)
| V8Array (elems : list V8Value)
| V8Object (props : list (string * V8Value))
| V8HostFunction (cb : HostCallback)
| V8ScriptFunction (source : string)
| V8Promise (handle : nat).

(** [obj.Set(key, value)] on an object: afterwards the name leads to the
    value.  A name already set is overwritten in place, a new one is added
    last. *)
Fixpoint obj_set (key : string) (value : V8Value)
    (props : list (string * V8Value)) : list (string * V8Value) :=
  match props with
  | [] => [(key, value)]
  | (k, v) :: rest =>
      if String.eqb k key then (k, value) :: rest
      else (k, v) :: obj_set key value rest
  end.

(** [obj.Get(key)] for a name that was set on the object: the value set
    last.  [None] says that nothing was set under the name; what the
    object inherits under a name is not part of the model. *)
Fixpoint obj_get (key : string) (props : list (string * V8Value))
    : option V8Value :=
  match props with
  | [] => None
  | (k, v) :: rest => if String.eqb k key then Some v else obj_get key rest
  end.

(** [float64(n)] for an integer [n]: the nearest number with a mantissa of
    53 bits, ties going to the even mantissa.  Up to 2^53 in absolute
    value every integer is its own image. *)
Definition float64_of_int (n : Z) : Z :=
  let a := Z.abs n in
  if (a <? 9007199254740992)%Z then n
  else
    let dropped := (Z.log2 a - 52)%Z in
    let mantissa := (a / 2 ^ dropped)%Z in
    let rest := (a mod 2 ^ dropped)%Z in
    let half := (2 ^ (dropped - 1))%Z in
    let rounded :=
      if (rest <? half)%Z then mantissa
      else if (half <? rest)%Z then (mantissa + 1)%Z
      else if Z.even mantissa then mantissa
      else (mantissa + 1)%Z in
    (Z.sgn n * (rounded * 2 ^ dropped))%Z.

(** No name occurs twice. *)
Fixpoint distinct (names : list string) : bool :=
  match names with
  | [] => true
  | name :: rest => negb (existsb (String.eqb name) rest) && distinct rest
  end.

(** A template, or a template set on it at any depth, carries a name
    twice.  A template keeps every property set on it, so a second [Set]
    under a name adds a second entry. *)
Fixpoint repeated_name (v : V8Value) : bool :=
  match v with
  | V8Object props =>
      negb (distinct (map fst props))
      || existsb (fun entry => repeated_name (snd entry)) props
  | _ => false
  end.

(** ** The engine and the kernel *)

Inductive PromiseState : Type := Pending | Fulfilled | Rejected.

(** What the source asks of v8go and cannot decide itself. *)
Record Engine : Type := {
  (** [v8.NewValue(iso, v)] *)
  NewValue : GoValue -> V8Value + GoError;
  (** [ctx.RunScript(source, origin)] *)
  RunScript : string -> string -> V8Value + GoError;
  (** [fn.Call(recv, args...)] *)
  Call : V8Value -> list V8Value -> V8Value + GoError;
  (** [tmpl.Set(key, value)] on an object template: the error, if any *)
  TemplateSet : string -> V8Value -> option GoError;
  (** [tmpl.NewInstance(ctx)]: the error, if any *)
  NewInstance : list (string * V8Value) -> option GoError;
  (** [obj.Set(key, value)] on an object: the error, if any *)
  ObjectSet : string -> V8Value -> option GoError;
  (** [value.String()] *)
  ValueString : V8Value -> string;
  (** the handles of the promises returned by [prom.Then] and [prom.Catch] *)
  ThenHandle : nat -> nat;
  CatchHandle : nat -> nat
}.

(** ** Parameter marshalling *)

(** [types.FunctionParameterCapsle] *)
Record FunctionParameterCapsle : Type := {
  CType : string;
  Value : GoValue
}.

Module Marshal.

Definition not_same_parameter : GoError :=
  Errorf "convertRequestParametersToV8Parameters: not same parameter".

Definition unsuported_datatype : GoError :=
  Errorf "convertRequestParametersToV8Parameters: unsuported datatype".

Definition wrapped (err : GoError) : GoError :=
  Errorf ("convertRequestParametersToV8Parameters: " +:+ ErrorText err).

(** The six [case] labels of the [switch item.CType]. *)
Definition supported_tags : list string :=
  ["boolean"; "number"; "string"; "array"; "object"; "bytes"].

(** What one turn of the loop does after the type comparison: the
    [switch] with its six (textually identical) cases and its [default]. *)
Definition convert_item (eng : Engine) (item : FunctionParameterCapsle)
    (convertedValues : list V8Value) : GoResult (list V8Value) :=
  let new_value :=
    match NewValue eng (Value item) with
    | inr err => Err (wrapped err)
    | inl val => Ok (convertedValues ++ [val])
    end in
  if String.eqb (CType item) "boolean" then new_value
  else if String.eqb (CType item) "number" then new_value
  else if String.eqb (CType item) "string" then new_value
  else if String.eqb (CType item) "array" then new_value
  else if String.eqb (CType item) "object" then new_value
  else if String.eqb (CType item) "bytes" then new_value
  else Err unsuported_datatype.

(** [for hight, item := range reqparms], entered at index [hight] with the
    values converted so far.  [parmTypes[hight]] is a bounds-checked slice
    access. *)
Fixpoint convert_from (eng : Engine) (parmTypes : list string) (hight : nat)
    (reqparms : list FunctionParameterCapsle)
    (convertedValues : list V8Value) : GoResult (list V8Value) :=
  match reqparms with
  | [] => Ok convertedValues
  | item :: rest =>
      match parmTypes !! hight with
      | None => Fault (IndexOutOfRange hight (length parmTypes))
      | Some wanted =>
          if negb (String.eqb (CType item) wanted)
          then Err not_same_parameter
          else
            match convert_item eng item convertedValues with
            | Ok convertedValues' =>
                convert_from eng parmTypes (S hight) rest convertedValues'
            | other => other
            end
      end
  end.

Definition convertRequestParametersToV8Parameters (eng : Engine)
    (parmTypes : list string) (reqparms : list FunctionParameterCapsle)
    : GoResult (list V8Value) :=
  convert_from eng parmTypes 0 reqparms [].

(** The decimal text of an index, and whether an error text contains it. *)
Definition index_text (i : nat) : string :=
  NilZero.string_of_uint (Nat.to_uint i).

Fixpoint contains (needle hay : string) : bool :=
  if String.prefix needle hay then true
  else match hay with
       | EmptyString => false
       | String _ rest => contains needle rest
       end.

Definition names_index (e : GoError) (i : nat) : bool :=
  contains (index_text i) (ErrorText e).

End Marshal.

(** ** The inbound request *)

(** [static.HTTP_REQUEST], [static.WEBSOCKET_REQUEST], [static.IPC_REQUEST],
    and any other value of the request type (the [default] of the switch). *)
Inductive RpcRequestType : Type :=
| HTTP_REQUEST
| WEBSOCKET_REQUEST
| IPC_REQUEST
| OTHER_REQUEST (code : nat).

(** [http.Cookie], the fields the source reads. *)
Record Cookie : Type := {
  Name : string;
  CookieValue : string;
  Domain : string;
  Path : string;
  RawExpires : string
}.

(** [types.HttpRequest].  [Header] is a Go [map[string][]string];
    [IsConnected] is the value the atomic probe holds when it is read. *)
Record HttpRequest : Type := {
  IsConnected : bool;
  ContentLength : Z;
  Host : string;
  Proto : string;
  RemoteAddr : string;
  RequestURI : string;
  Cookies : list Cookie;
  Header : gmap string (list string)
}.

(** [types.RpcRequest]; [HttpRequest] is a pointer and may be nil. *)
Record RpcRequest : Type := {
  RequestType : RpcRequestType;
  Parms : list FunctionParameterCapsle;
  HttpRequestOf : option HttpRequest
}.

(** [types.FunctionCallState], the fields the source writes. *)
Record FunctionCallState : Type := {
  Error : string;
  State : string
}.

(** The three terminators of the request context, as calls. *)
Inductive Signal : Type :=
| functionCallFinal
| functionCallException (msg : string)
| writeRequestReturnResponse (st : FunctionCallState).

(** ** Value inspection of v8go *)

Definition IsPromise (v : V8Value) : bool :=
  match v with V8Promise _ => true | _ => false end.

(** [value.AsPromise()] fails exactly on a value that is no promise. *)
Definition AsPromise (v : V8Value) : nat + GoError :=
  match v with
  | V8Promise handle => inl handle
  | _ => inr (ErrorString "v8go: value must be a promise")
  end.

Definition IsFunction (v : V8Value) : bool :=
  match v with V8HostFunction _ | V8ScriptFunction _ => true | _ => false end.

Definition AsFunction (v : V8Value) : V8Value + GoError :=
  if IsFunction v then inl v
  else inr (ErrorString "v8go: value is not a Function").

Definition IsObject (v : V8Value) : bool :=
  match v with
  | V8Array _ | V8Object _ | V8HostFunction _ | V8ScriptFunction _
  | V8Promise _ => true
  | _ => false
  end.

Definition AsObject (v : V8Value) : V8Value + GoError :=
  if IsObject v then inl v
  else inr (ErrorString "v8go: value is not an Object").

(** [obj.MethodCall("push", value)] with its result dropped: an array
    grows by one element at its end; on anything else the call fails and
    the failure is not looked at. *)
Definition MethodCall_push (obj value : V8Value) : V8Value :=
  match obj with
  | V8Array elems => V8Array (elems ++ [value])
  | other => other
  end.

(** ** The request object *)

Module RequestObject.
Section WithEngine.

Variable eng : Engine.
Variable utils : Utils.

(** [rpcrequest.IsHttpRequest], a function of package [rpc_request], which
    is not part of the files under study. *)
Variable IsHttpRequest : RpcRequest -> bool.

Definition origin : string := "v8makeSharedFunctionObject".

Definition Props : Type := list (string * V8Value).

(** [tmpl.Set(key, value)]: unless the binding reports an error, the
    property is added to those of the template, also when the template
    has one of that name already. *)
Definition template_set (key : string) (value : V8Value) (tmpl : Props)
    : Props + GoError :=
  match TemplateSet eng key value with
  | Some err => inr err
  | None => inl (tmpl ++ [(key, value)])
  end.

(** The same with the error dropped, as for the fields of a cookie. *)
Definition template_set_unchecked (key : string) (value : V8Value)
    (tmpl : Props) : Props :=
  match template_set key value tmpl with
  | inl tmpl' => tmpl'
  | inr _ => tmpl
  end.

Definition object_set (key : string) (value : V8Value) (obj : Props)
    : Props + GoError :=
  match ObjectSet eng key value with
  | Some err => inr err
  | None => inl (obj_set key value obj)
  end.

(** [tmpl.NewInstance(ctx)].  The engine instantiates the template with
    the templates set on it; a name that a template carries twice is a
    fatal error of the engine. *)
Definition new_instance (tmpl : Props) : GoResult Props :=
  if repeated_name (V8Object tmpl) then Fault EngineAbort
  else
    match NewInstance eng tmpl with
    | Some err => Err err
    | None => Ok tmpl
    end.

(** The cookie loop. *)
Fixpoint add_cookies (items : list Cookie) (cookies : Props)
    : GoResult Props :=
  match items with
  | [] => Ok cookies
  | item :: rest =>
      let cookieObject :=
        template_set_unchecked "Expires" (V8String (RawExpires item))
          (template_set_unchecked "Path" (V8String (Path item))
            (template_set_unchecked "Domain" (V8String (Domain item))
              (template_set_unchecked "Value" (V8String (CookieValue item))
                []))) in
      match template_set (Name item) (V8Object cookieObject) cookies with
      | inr err => Err (MakeV8Error utils origin err)
      | inl cookies' => add_cookies rest cookies'
      end
  end.

Definition slice_source : string := "(function() { return []; })();".

(** [for _, value := range v]: convert one header value and push it. *)
Fixpoint push_values (v : list string) (sliceObject : V8Value)
    : GoResult V8Value :=
  match v with
  | [] => Ok sliceObject
  | value :: rest =>
      match NewValue eng (GoString value) with
      | inr err => Err (MakeV8Error utils origin err)
      | inl v8Value => push_values rest (MethodCall_push sliceObject v8Value)
      end
  end.

(** [for k, v := range rrpcrequest.HttpRequest.Header], over the entries in
    the order the iteration visits them. *)
Fixpoint add_headers (entries : list (string * list string)) (headers : Props)
    : GoResult Props :=
  match entries with
  | [] => Ok headers
  | (k, v) :: rest =>
      match RunScript eng slice_source "slice.js" with
      | inr err => Err (MakeV8Error utils origin err)
      | inl sliceV8 =>
          match AsObject sliceV8 with
          | inr err => Err (MakeV8Error utils origin err)
          | inl sliceObject =>
              match push_values v sliceObject with
              | Ok filled =>
                  match object_set k filled headers with
                  | inr err => Err (MakeV8Error utils origin err)
                  | inl headers' => add_headers rest headers'
                  end
              | Err e => Err e
              | Fault p => Fault p
              end
          end
      end
  end.

(** Seven checked [httpObj.Set] calls in the order of the source;
    [ContentLength] is handed over as [float64(...)]. *)
Fixpoint set_all (fields : list (string * V8Value)) (tmpl : Props)
    : GoResult Props :=
  match fields with
  | [] => Ok tmpl
  | (key, value) :: rest =>
      match template_set key value tmpl with
      | inr err => Err (MakeV8Error utils origin err)
      | inl tmpl' => set_all rest tmpl'
      end
  end.

Definition http_fields (h : HttpRequest) (cookies : Props)
    : list (string * V8Value) :=
  [ ("IsConnected", V8HostFunction isConnected);
    ("ContentLength", V8Number (float64_of_int (ContentLength h)));
    ("Host", V8String (Host h));
    ("Proto", V8String (Proto h));
    ("RemoteAddr", V8String (RemoteAddr h));
    ("RequestURI", V8String (RequestURI h));
    ("Cookies", V8Object cookies) ].

(** The [case static.HTTP_REQUEST] of the switch, after the test that the
    HTTP part is present: it returns the request object with its [http]
    property set.  [entries] is the header map in iteration order. *)
Definition http_case (h : HttpRequest) (entries : list (string * list string))
    (obj : Props) : GoResult Props :=
  match add_cookies (Cookies h) [] with
  | Err e => Err e
  | Fault p => Fault p
  | Ok cookies =>
      match new_instance [] with
      | Err err => Err (MakeV8Error utils origin err)
      | Fault p => Fault p
      | Ok headers0 =>
          match add_headers entries headers0 with
          | Err e => Err e
          | Fault p => Fault p
          | Ok headers =>
              match set_all (http_fields h cookies) [] with
              | Err e => Err e
              | Fault p => Fault p
              | Ok httpObj =>
                  match new_instance httpObj with
                  | Err err => Err (MakeV8Error utils origin err)
                  | Fault p => Fault p
                  | Ok http =>
                      match object_set "Headers" (V8Object headers) http with
                      | inr err => Err (MakeV8Error utils origin err)
                      | inl http' =>
                          match object_set "http" (V8Object http') obj with
                          | inr err => Err (MakeV8Error utils origin err)
                          | inl obj' => Ok obj'
                          end
                      end
                  end
              end
          end
      end
  end.

(** The [switch rrpcrequest.RequestType]: the connection type and the
    object as it leaves the switch. *)
Definition connection_switch (rrpcrequest : RpcRequest) (obj : Props)
    : GoResult (string * Props) :=
  match RequestType rrpcrequest with
  | HTTP_REQUEST =>
      if negb (IsHttpRequest rrpcrequest)
      then Err (MakeRequestTypeIsNotHttpRequest utils origin)
      else
        match HttpRequestOf rrpcrequest with
        | None => Fault NilDereference
        | Some h =>
            match http_case h (map_to_list (Header h)) obj with
            | Ok obj' => Ok ("http", obj')
            | Err e => Err e
            | Fault p => Fault p
            end
        end
  | WEBSOCKET_REQUEST => Ok ("ws", obj)
  | IPC_REQUEST => Ok ("ipc", obj)
  | OTHER_REQUEST _ => Err (MakeUnkownMethodeError utils origin)
  end.

Definition v8makeSharedFunctionObject (rrpcrequest : RpcRequest)
    : GoResult V8Value :=
  match template_set "Resolve" (V8HostFunction resolveFunctionCallbackV8) [] with
  | inr _ => Err (V8ObjectWritingError utils)
  | inl t1 =>
      match template_set "Reject" (V8HostFunction rejectFunctionCallbackV8) t1 with
      | inr _ => Err (V8ObjectWritingError utils)
      | inl objTemplate =>
          match new_instance objTemplate with
          | Err _ => Err (V8ObjectWritingError utils)
          | Fault p => Fault p
          | Ok obj =>
              match connection_switch rrpcrequest obj with
              | Err e => Err e
              | Fault p => Fault p
              | Ok (rpcConnectionType, obj1) =>
                  match NewValue eng (GoString rpcConnectionType) with
                  | inr err => Err (MakeV8Error utils origin err)
                  | inl val =>
                      match object_set "CallMethode" val obj1 with
                      | inr err => Err (MakeV8Error utils origin err)
                      | inl obj2 => Ok (V8Object obj2)
                      end
                  end
              end
          end
      end
  end.

(** The proxy shield: ten checked [obj.Set] calls, then the instance. *)
Definition proxy_fields : list (string * V8Value) :=
  [ ("proxyShieldConsoleLog", V8HostFunction proxyShield_ConsoleLog);
    ("proxyShieldErrorLog", V8HostFunction proxyShield_ErrorLog);
    ("clearInterval", V8HostFunction proxyShield_ClearInterval);
    ("clearTimeout", V8HostFunction proxyShield_ClearTimeout);
    ("setInterval", V8HostFunction proxyShield_SetInterval);
    ("setTimeout", V8HostFunction proxyShield_SetTimeout);
    ("resolve", V8HostFunction resolveFunctionCallbackV8);
    ("reject", V8HostFunction rejectFunctionCallbackV8);
    ("newPromise", V8HostFunction proxyShield_NewPromise);
    ("wait", V8HostFunction testWait) ].

Fixpoint proxy_set_all (fields : list (string * V8Value)) (tmpl : Props)
    : GoResult Props :=
  match fields with
  | [] => Ok tmpl
  | (key, value) :: rest =>
      match template_set key value tmpl with
      | inr _ => Err (V8ObjectWritingError utils)
      | inl tmpl' => proxy_set_all rest tmpl'
      end
  end.

Definition v8makeProxyForRPCCall : GoResult V8Value :=
  match proxy_set_all proxy_fields [] with
  | Err e => Err e
  | Fault p => Fault p
  | Ok obj =>
      match new_instance obj with
      | Err _ => Err (V8ObjectInstanceCreatingError utils)
      | Fault p => Fault p
      | Ok fobj => Ok (V8Object fobj)
      end
  end.

(** An array holds the engine values of the given strings, in order. *)
Definition holds (v : list string) (elems : list V8Value) : Prop :=
  Forall2 (fun value elem => NewValue eng (GoString value) = inl elem) v elems.

(** The engine evaluates the array literal of [slice.js] to an empty
    array whenever it evaluates it at all. *)
Definition literal_is_empty_array : Prop :=
  forall sliceV8,
  RunScript eng slice_source "slice.js" = inl sliceV8 -> sliceV8 = V8Array [].

End WithEngine.
End RequestObject.

(** ** The engine-loop tasks *)

(** [SharedFunction], the fields the pipeline reads: [o.signature.Params]
    and [o.v8Function]. *)
Record SharedFunction : Type := {
  signature_Params : list string;
  v8Function : V8Value
}.

(** An engine-loop task is the closure one of the submitting functions
    builds; each constructor carries what its closure captures besides the
    shared function, the request context and the request. *)
Inductive Task : Type :=
| InitTask
| ProxyObjectPrepareTask (requestObj : V8Value) (convertedValues : list V8Value)
| CallTask (proxFunction : V8Value) (proxArguments : list V8Value)
| PromiseOperationTask (result : V8Value)
| FinallTask (prom : nat)
| CheckTask (prom : nat).

(** [o.kernel]: whether a submission is refused, and with which error. *)
Record Kernel : Type := {
  AddToEventLoop : Task -> option GoError
}.

(** What a task body or a callback does to the world, in order. *)
Inductive Event : Type :=
| SetError (err : GoError)
| SetResult
| Submitted (t : Task)
| Go (sleep : Z) (t : Task)
| Called (fn : V8Value) (args : list V8Value)
| Then (prom : nat) (onFulfilled onRejected : HostCallback)
| Catch (prom : nat) (onRejected : HostCallback)
| PerformMicrotaskCheckpoint
| Terminator (s : Signal)
| Throw (msg : string).

(** How a task body ends. *)
Inductive Completion : Type :=
| Returned
| Panicked (p : GoPanic).

Record Outcome : Type := {
  events : list Event;
  completion : Completion
}.

(** [time.Millisecond], in nanoseconds. *)
Definition Millisecond : Z := 1000000.

Module Pipeline.
Section WithCall.

Variable eng : Engine.
Variable utils : Utils.
Variable IsHttpRequest : RpcRequest -> bool.
Variable kernel : Kernel.

(** The constant [testJsProxySource], declared outside the file. *)
Variable testJsProxySource : string.

Variable o : SharedFunction.
Variable req : RpcRequest.

(** The tail every submitting function shares, word for word:
    [o.kernel.AddToEventLoop] and the type switch on its error. *)
Definition add_to_event_loop (t : Task) : list Event * option GoError :=
  match AddToEventLoop kernel t with
  | Some (SpecificError msg) => ([], Some (SpecificError msg))
  | Some err =>
      ([], Some (Errorf ("functionCallInEventloopFinall: " +:+ ErrorText err)))
  | None => ([Submitted t], None)
  end.

(** [callInKernelEventLoopCheck], given what [prom.State()] reads. *)
Definition callInKernelEventLoopCheck (prom : nat) (state : PromiseState)
    : list Event * option GoError :=
  match state with
  | Pending => ([Go (1 * Millisecond) (CheckTask prom)], None)
  | Rejected => ([PerformMicrotaskCheckpoint], None)
  | Fulfilled => ([], None)
  end.

(** The body the goroutine of the pending case submits. *)
Definition check_body (prom : nat) (state : PromiseState) : Outcome :=
  let '(evs, _) := callInKernelEventLoopCheck prom state in
  {| events := evs; completion := Returned |}.

(** The body of the task of [functionCallInEventloopFinall]. *)
Definition finall_body (prom : nat) (state : PromiseState) : Outcome :=
  let '(evs, err) := callInKernelEventLoopCheck prom state in
  let on_error :=
    match err with
    | Some e => [SetError e]
    | None => []
    end in
  {| events := evs ++ on_error ++ [SetResult]; completion := Returned |}.

Definition functionCallInEventloopFinall (prom : nat)
    : list Event * option GoError :=
  add_to_event_loop (FinallTask prom).

(** The body of the task of [functionCallInEventloopPromiseOperation]. *)
Definition promise_operation_body (result : V8Value) : Outcome :=
  if negb (IsPromise result)
  then {| events := []; completion := Panicked (PanicString "isnr promise") |}
  else
    match AsPromise result with
    | inr err => {| events := []; completion := Panicked (PanicError err) |}
    | inl prom =>
        let prom1 := ThenHandle eng prom in
        let prom2 := CatchHandle eng prom1 in
        let attach := [Then prom funcFinal throwProm; Catch prom1 throwProm] in
        match functionCallInEventloopFinall prom2 with
        | (evs, Some _) =>
            {| events := attach ++ evs; completion := Returned |}
        | (evs, None) =>
            {| events := attach ++ evs ++ [SetResult]; completion := Returned |}
        end
    end.

Definition functionCallInEventloopPromiseOperation (result : V8Value)
    : list Event * option GoError :=
  add_to_event_loop (PromiseOperationTask result).

(** The body of the task of [functionCallInEventloop]. *)
Definition call_body (proxFunction : V8Value) (proxArguments : list V8Value)
    : Outcome :=
  match Call eng proxFunction proxArguments with
  | inr err =>
      {| events := [Called proxFunction proxArguments];
         completion := Panicked (PanicError err) |}
  | inl result =>
      match functionCallInEventloopPromiseOperation result with
      | (evs, Some _) =>
          {| events := Called proxFunction proxArguments :: evs;
             completion := Returned |}
      | (evs, None) =>
          {| events := Called proxFunction proxArguments :: evs ++ [SetResult];
             completion := Returned |}
      end
  end.

Definition functionCallInEventloop (proxFunction : V8Value)
    (proxArguments : list V8Value) : list Event * option GoError :=
  add_to_event_loop (CallTask proxFunction proxArguments).

Definition silent_return : Outcome :=
  {| events := []; completion := Returned |}.

(** The body of the task of [functionCallInEventloopProxyObjectPrepare]. *)
Definition proxy_object_prepare_body (requestObj : V8Value)
    (convertedValues : list V8Value) : Outcome :=
  let finalArguments := requestObj :: convertedValues in
  match RunScript eng testJsProxySource "rpc_function_call_proxy_shield.js" with
  | inr _ => silent_return
  | inl procxyFunction =>
      match AsFunction procxyFunction with
      | inr _ => silent_return
      | inl proxFunction =>
          match RequestObject.v8makeProxyForRPCCall eng utils with
          | Err _ => silent_return
          | Fault p => {| events := []; completion := Panicked p |}
          | Ok proxyObject =>
              let proxArguments :=
                [v8Function o; proxyObject] ++ finalArguments in
              match functionCallInEventloop proxFunction proxArguments with
              | (evs, Some _) => {| events := evs; completion := Returned |}
              | (evs, None) =>
                  {| events := evs ++ [SetResult]; completion := Returned |}
              end
          end
      end
  end.

Definition functionCallInEventloopProxyObjectPrepare (requestObj : V8Value)
    (convertedValues : list V8Value) : list Event * option GoError :=
  add_to_event_loop (ProxyObjectPrepareTask requestObj convertedValues).

(** The body of the task of [functionCallInEventloopInit]. *)
Definition init_body : Outcome :=
  match Marshal.convertRequestParametersToV8Parameters eng
          (signature_Params o) (Parms req) with
  | Err _ => silent_return
  | Fault p => {| events := []; completion := Panicked p |}
  | Ok convertedValues =>
      match RequestObject.v8makeSharedFunctionObject eng utils IsHttpRequest
              req with
      | Err _ => silent_return
      | Fault p => {| events := []; completion := Panicked p |}
      | Ok requestObj =>
          match functionCallInEventloopProxyObjectPrepare requestObj
                  convertedValues with
          | (evs, Some _) => {| events := evs; completion := Returned |}
          | (evs, None) =>
              {| events := evs ++ [SetResult]; completion := Returned |}
          end
      end
  end.

Definition functionCallInEventloopInit : list Event * option GoError :=
  add_to_event_loop InitTask.

(** The body of a task, given what a promise's state reads at that turn. *)
Definition body (state : nat -> PromiseState) (t : Task) : Outcome :=
  match t with
  | InitTask => init_body
  | ProxyObjectPrepareTask requestObj convertedValues =>
      proxy_object_prepare_body requestObj convertedValues
  | CallTask proxFunction proxArguments =>
      call_body proxFunction proxArguments
  | PromiseOperationTask result => promise_operation_body result
  | FinallTask prom => finall_body prom (state prom)
  | CheckTask prom => check_body prom (state prom)
  end.

End WithCall.
End Pipeline.

(** ** The callbacks the pipeline hands to the engine *)

Module Callbacks.

(** What a callback did and what it hands back to the engine ([None] is
    the nil pointer). *)
Record Reply : Type := {
  effects : list Event;
  returns : option V8Value
}.

(** The closure [funcFinal]. *)
Definition funcFinal_call (args : list V8Value) : GoResult Reply :=
  Ok {| effects := [Terminator functionCallFinal];
        returns := Some V8Undefined |}.

(** The closure [throwProm]; [info.Args()[0]] is a bounds-checked access. *)
Definition throwProm_call (eng : Engine) (args : list V8Value)
    : GoResult Reply :=
  match args !! 0%nat with
  | None => Fault (IndexOutOfRange 0 (length args))
  | Some reason =>
      Ok {| effects :=
              [Terminator (functionCallException (ValueString eng reason))];
            returns := Some V8Undefined |}
  end.

(** The closure [isConnected], for a request with its HTTP part. *)
Definition isConnected_call (eng : Engine) (h : HttpRequest) : Reply :=
  match NewValue eng (GoBool (IsConnected h)) with
  | inr _ =>
      {| effects :=
           [Terminator (writeRequestReturnResponse
                          {| Error := "javascript engine error";
                             State := "aborted" |});
            Throw "internal engine error"];
         returns := None |}
  | inl value => {| effects := []; returns := Some value |}
  end.

(** A callback by the name under which it is handed to the engine.  Only
    the three closures of the file under study have a body here; the others
    are methods of the request context. *)
Definition invoke (eng : Engine) (h : HttpRequest) (cb : HostCallback)
    (args : list V8Value) : option (GoResult Reply) :=
  match cb with
  | funcFinal => Some (funcFinal_call args)
  | throwProm => Some (throwProm_call eng args)
  | isConnected => Some (Ok (isConnected_call eng h))
  | _ => None
  end.

End Callbacks.

(** ** The engine loop *)

Module Loop.
Section WithCall.

Variable eng : Engine.
Variable utils : Utils.
Variable IsHttpRequest : RpcRequest -> bool.
Variable kernel : Kernel.
Variable testJsProxySource : string.
Variable o : SharedFunction.
Variable req : RpcRequest.

(** What [prom.State()] reads at a given turn of the loop. *)
Variable state : nat -> nat -> PromiseState.

(** The loop of one call: the tasks waiting in submission order, what has
    happened so far, the panic that stopped the loop, the turn counter. *)
Record Machine : Type := {
  queue : list Task;
  log : list Event;
  crashed : option GoPanic;
  turn : nat
}.

(** The tasks a body leaves behind: those it submitted, and those of its
    goroutines that the kernel accepts once they wake up. *)
Fixpoint enqueued (evs : list Event) : list Task :=
  match evs with
  | [] => []
  | Submitted t :: rest => t :: enqueued rest
  | Go _ t :: rest =>
      match AddToEventLoop kernel t with
      | None => t :: enqueued rest
      | Some _ => enqueued rest
      end
  | _ :: rest => enqueued rest
  end.

Definition step (m : Machine) : Machine :=
  match crashed m, queue m with
  | None, t :: waiting =>
      let out :=
        Pipeline.body eng utils IsHttpRequest kernel testJsProxySource o req
          (state (turn m)) t in
      {| queue := waiting ++ enqueued (events out);
         log := log m ++ events out;
         crashed := match completion out with
                    | Panicked p => Some p
                    | Returned => None
                    end;
         turn := S (turn m) |}
  | _, _ => m
  end.

Fixpoint run (turns : nat) (m : Machine) : Machine :=
  match turns with
  | O => m
  | S n => run n (step m)
  end.

(** The loop when the transport has submitted the first task. *)
Definition start : Machine :=
  {| queue := [InitTask]; log := []; crashed := None; turn := 0 |}.

(** The user function runs only inside the call of the wrapper. *)
Definition is_call (ev : Event) : bool :=
  match ev with Called _ _ => true | _ => false end.

Definition is_terminator (ev : Event) : bool :=
  match ev with Terminator _ => true | _ => false end.

Definition is_set_error (ev : Event) : bool :=
  match ev with SetError _ => true | _ => false end.

Definition is_set_result (ev : Event) : bool :=
  match ev with SetResult => true | _ => false end.

End WithCall.
End Loop.

(** ** The request context *)

Module Context.

(** Modelled from the spec: the request context, whose declaration is
    outside the files under study.  It holds the single-shot response sink
    and the [terminal] flag (section 3). *)
Record SharedFunctionRequestContext : Type := {
  terminal : bool;
  responseChan : list FunctionCallState
}.

Section WithFinal.

(** What [functionCallFinal] reports for a context, if anything: the spec
    keeps a call whose promise is fulfilled without [Resolve] pending
    (section 4.5), and does not say more. *)
Variable final : SharedFunctionRequestContext -> option FunctionCallState.

(** Modelled from the spec: what each terminator would write (the three
    terminators are outside the files under study).  An exception is
    reported as [{state: "exception", error}] (section 3); a response is
    written as it is given. *)
Definition outcome_of (s : Signal) (c : SharedFunctionRequestContext)
    : option FunctionCallState :=
  match s with
  | functionCallFinal => final c
  | functionCallException msg =>
      Some {| Error := msg; State := "exception" |}
  | writeRequestReturnResponse st => Some st
  end.

(** Modelled from the spec: a terminator, outside the files under study,
    as section 4.5 asks it of an implementation: guarded by the [terminal]
    flag in one step, the first to win writes the outcome, the others are
    no-ops.  Section 9 notes that the source shows no mutex on this path;
    this is the guard the spec prescribes, not one read off the source. *)
Definition terminate (s : Signal) (c : SharedFunctionRequestContext)
    : SharedFunctionRequestContext :=
  if terminal c then c
  else
    match outcome_of s c with
    | Some st => {| terminal := true; responseChan := responseChan c ++ [st] |}
    | None => c
    end.

(** The context after a sequence of terminator calls, in the order in which
    they take the guard. *)
Definition deliver (signals : list Signal) (c : SharedFunctionRequestContext)
    : SharedFunctionRequestContext :=
  fold_left (fun c s => terminate s c) signals c.

(** The terminator calls among the events of task bodies and callbacks. *)
Fixpoint signals_of (evs : list Event) : list Signal :=
  match evs with
  | [] => []
  | Terminator s :: rest => s :: signals_of rest
  | _ :: rest => signals_of rest
  end.

End WithFinal.
End Context.

(** ** A concrete engine, for examples *)

Module Sample.

(** v8go converts booleans, numbers and strings and refuses the rest. *)
Definition newValue (v : GoValue) : V8Value + GoError :=
  match v with
  | GoBool b => inl (V8Boolean b)
  | GoNumber n => inl (V8Number n)
  | GoString s => inl (V8String s)
  | _ => inr (ErrorString "v8go: unsupported value type")
  end.

Definition runScript (source origin : string) : V8Value + GoError :=
  if String.eqb source RequestObject.slice_source then inl (V8Array [])
  else inl (V8ScriptFunction source).

Definition valueString (v : V8Value) : string :=
  match v with
  | V8String s => s
  | _ => "[object]"
  end.

(** An engine in which every operation succeeds and the wrapper returns
    the promise with handle [0]. *)
Definition engine : Engine :=
  {| NewValue := newValue;
     RunScript := runScript;
     Call := fun _ _ => inl (V8Promise 0);
     TemplateSet := fun _ _ => None;
     NewInstance := fun _ => None;
     ObjectSet := fun _ _ => None;
     ValueString := valueString;
     ThenHandle := S;
     CatchHandle := S |}.

(** The same engine with a wrapper that throws. *)
Definition throwing_engine : Engine :=
  {| NewValue := newValue;
     RunScript := runScript;
     Call := fun _ _ => inr (ErrorString "Error: boom");
     TemplateSet := fun _ _ => None;
     NewInstance := fun _ => None;
     ObjectSet := fun _ _ => None;
     ValueString := valueString;
     ThenHandle := S;
     CatchHandle := S |}.

(** The same engine with a wrapper that returns no promise. *)
Definition careless_engine : Engine :=
  {| NewValue := newValue;
     RunScript := runScript;
     Call := fun _ _ => inl V8Undefined;
     TemplateSet := fun _ _ => None;
     NewInstance := fun _ => None;
     ObjectSet := fun _ _ => None;
     ValueString := valueString;
     ThenHandle := S;
     CatchHandle := S |}.

Definition utils : Utils :=
  {| V8ObjectWritingError := SpecificError "v8 object writing error";
     V8ObjectInstanceCreatingError :=
       SpecificError "v8 object instance creating error";
     MakeV8Error := fun origin err =>
       SpecificError (origin +:+ ": " +:+ ErrorText err);
     MakeRequestTypeIsNotHttpRequest := fun origin =>
       SpecificError (origin +:+ ": not a http request");
     MakeUnkownMethodeError := fun origin =>
       SpecificError (origin +:+ ": unkown methode") |}.

Definition isHttpRequest (r : RpcRequest) : bool :=
  match HttpRequestOf r with Some _ => true | None => false end.

(** A kernel that accepts every task. *)
Definition kernel : Kernel := {| AddToEventLoop := fun _ => None |}.

Definition number (n : Z) : FunctionParameterCapsle :=
  {| CType := "number"; Value := GoNumber n |}.

Definition text (s : string) : FunctionParameterCapsle :=
  {| CType := "string"; Value := GoString s |}.

Definition add : SharedFunction :=
  {| signature_Params := ["number"; "number"];
     v8Function := V8ScriptFunction "(req, a, b) => req.Resolve(a+b)" |}.

Definition greet : SharedFunction :=
  {| signature_Params := ["string"];
     v8Function := V8ScriptFunction "(req, name) => req.Resolve(name)" |}.

Definition ipc_request (parms : list FunctionParameterCapsle) : RpcRequest :=
  {| RequestType := IPC_REQUEST; Parms := parms; HttpRequestOf := None |}.

Definition http_part : HttpRequest :=
  {| IsConnected := true;
     ContentLength := 0;
     Host := "localhost";
     Proto := "HTTP/1.1";
     RemoteAddr := "127.0.0.1:4000";
     RequestURI := "/rpc";
     Cookies :=
       [ {| Name := "s"; CookieValue := "1"; Domain := "d"; Path := "/";
            RawExpires := "e" |} ];
     Header := {[ "X-F" := ["a"; "b"] ]} |}.

Definition http_request (parms : list FunctionParameterCapsle) : RpcRequest :=
  {| RequestType := HTTP_REQUEST; Parms := parms;
     HttpRequestOf := Some http_part |}.

Definition proxy_source : string := "(function(f, t, r, ...a) { return Promise.resolve(f.call(t, r, ...a)); })".

Definition always (s : PromiseState) : nat -> nat -> PromiseState :=
  fun _ _ => s.

End Sample.

(** ** Notions for stating further properties *)

Module Notions.

(** A parameter passes the turn of the marshalling loop for a signature
    entry and yields a value. *)
Definition converts (eng : Engine) (wanted : string)
    (item : FunctionParameterCapsle) (val : V8Value) : Prop :=
  CType item = wanted
  /\ CType item ∈ Marshal.supported_tags
  /\ NewValue eng (Value item) = inl val.

(** The template the cookie loop builds for one cookie: four [Set] calls
    whose errors are dropped. *)
Definition cookieObject (eng : Engine) (item : Cookie) : RequestObject.Props :=
  RequestObject.template_set_unchecked eng "Expires" (V8String (RawExpires item))
    (RequestObject.template_set_unchecked eng "Path" (V8String (Path item))
      (RequestObject.template_set_unchecked eng "Domain" (V8String (Domain item))
        (RequestObject.template_set_unchecked eng "Value"
           (V8String (CookieValue item)) []))).

(** The entry the cookie loop puts on the cookies template for a cookie. *)
Definition cookie_entry (eng : Engine) (item : Cookie) : string * V8Value :=
  (Name item, V8Object (cookieObject eng item)).

(** One header passes the header loop: the literal is evaluated, every
    value is converted, and the array is stored under the name. *)
Definition header_passes (eng : Engine) (utils : Utils)
    (entry : string * list string) : Prop :=
  exists sliceV8 filled,
    RunScript eng RequestObject.slice_source "slice.js" = inl sliceV8
    /\ IsObject sliceV8 = true
    /\ RequestObject.push_values eng utils entry.2 sliceV8 = Ok filled
    /\ ObjectSet eng entry.1 filled = None.

(** The two callbacks every request object starts with. *)
Definition base_object : RequestObject.Props :=
  [ ("Resolve", V8HostFunction resolveFunctionCallbackV8);
    ("Reject", V8HostFunction rejectFunctionCallbackV8) ].

Definition is_submitted (ev : Event) : bool :=
  match ev with Submitted _ => true | _ => false end.

Definition is_go (ev : Event) : bool :=
  match ev with Go _ _ => true | _ => false end.

(** How often a body calls [klopr.SetResult]. *)
Definition set_result_count (evs : list Event) : nat :=
  length (List.filter Loop.is_set_result evs).

(** The loop of a call that has only its poll left. *)
Definition polling (prom : nat) (seen : list Event) (at_turn : nat)
    : Loop.Machine :=
  {| Loop.queue := [CheckTask prom]; Loop.log := seen; Loop.crashed := None;
     Loop.turn := at_turn |}.

End Notions.

(** ** Further concrete cases, for examples *)

Module Cases.

(** A promise that is pending for three turns and fulfilled from then on. *)
Definition settles_after_three : nat -> nat -> PromiseState :=
  fun at_turn _ => if (at_turn <? 3)%nat then Pending else Fulfilled.

(** A kernel that is shutting down. *)
Definition closing_kernel : Kernel :=
  {| AddToEventLoop := fun _ => Some (SpecificError "kernel is closing") |}.

(** An engine whose scripts fail to compile. *)
Definition broken_engine : Engine :=
  {| NewValue := Sample.newValue;
     RunScript := fun _ _ => inr (ErrorString "SyntaxError");
     Call := fun _ _ => inl (V8Promise 0);
     TemplateSet := fun _ _ => None;
     NewInstance := fun _ => None;
     ObjectSet := fun _ _ => None;
     ValueString := Sample.valueString;
     ThenHandle := S;
     CatchHandle := S |}.

Definition two_cookies : list Cookie :=
  [ {| Name := "s"; CookieValue := "1"; Domain := "d"; Path := "/";
       RawExpires := "e" |};
    {| Name := "t"; CookieValue := "2"; Domain := "d"; Path := "/x";
       RawExpires := "f" |} ].

(** Two cookies that share their name. *)
Definition clashing_cookies : list Cookie :=
  [ {| Name := "s"; CookieValue := "1"; Domain := "d"; Path := "/";
       RawExpires := "e" |};
    {| Name := "s"; CookieValue := "2"; Domain := "d"; Path := "/x";
       RawExpires := "f" |} ].

Definition http_part_with (cookies : list Cookie) : HttpRequest :=
  {| IsConnected := true;
     ContentLength := 12;
     Host := "example.org";
     Proto := "HTTP/2.0";
     RemoteAddr := "10.0.0.7:51000";
     RequestURI := "/call";
     Cookies := cookies;
     Header := {[ "Accept" := ["*/*"] ]} |}.

Definition http_part : HttpRequest := http_part_with two_cookies.

Definition http_request : RpcRequest :=
  {| RequestType := HTTP_REQUEST; Parms := [];
     HttpRequestOf := Some http_part |}.

Definition clashing_request : RpcRequest :=
  {| RequestType := HTTP_REQUEST; Parms := [];
     HttpRequestOf := Some (http_part_with clashing_cookies) |}.

Definition nil_http_request : RpcRequest :=
  {| RequestType := HTTP_REQUEST; Parms := []; HttpRequestOf := None |}.

End Cases.

(** * Properties *)

(** ** Parameter marshalling *)

Module MarshalFacts.
Import Marshal.

Lemma convert_item_supported eng item done :
  CType item ∈ supported_tags ->
  convert_item eng item done =
    match NewValue eng (Value item) with
    | inr err => Err (wrapped err)
    | inl val => Ok (done ++ [val])
    end.
Proof.
  unfold supported_tags, convert_item.
  rewrite !elem_of_cons, elem_of_nil.
  intros [H|[H|[H|[H|[H|[H|[]]]]]]]; rewrite H; reflexivity.
Qed.

Lemma convert_item_unsupported eng item done :
  CType item ∉ supported_tags ->
  convert_item eng item done = Err unsuported_datatype.
Proof.
  unfold supported_tags, convert_item.
  rewrite !elem_of_cons, elem_of_nil. intros H.
  repeat match goal with
  | |- context [String.eqb ?a ?b] =>
      destruct (String.eqb_spec a b) as [Heq|_]; [exfalso; tauto|]
  end.
  reflexivity.
Qed.

(** The loop over a list in two parts is the loop over the first part
    followed, if that succeeds, by the loop over the second. *)
Lemma convert_from_app eng parmTypes front back :
  forall hight done,
  convert_from eng parmTypes hight (front ++ back) done =
    match convert_from eng parmTypes hight front done with
    | Ok done' =>
        convert_from eng parmTypes (hight + length front) back done'
    | other => other
    end.
Proof.
  induction front as [|item front IH]; intros hight done; simpl.
  - rewrite Nat.add_0_r. reflexivity.
  - destruct (parmTypes !! hight) as [wanted|]; [|reflexivity].
    destruct (negb (String.eqb (CType item) wanted)); [reflexivity|].
    destruct (convert_item eng item done) as [done'| |]; try reflexivity.
    rewrite IH. replace (S hight + length front)%nat
      with (hight + S (length front))%nat by lia. reflexivity.
Qed.

(** Each turn that succeeds appends exactly one value. *)
Lemma convert_from_length eng parmTypes reqparms :
  forall hight done result,
  convert_from eng parmTypes hight reqparms done = Ok result ->
  length result = (length done + length reqparms)%nat.
Proof.
  induction reqparms as [|item rest IH]; intros hight done result; simpl.
  - intros [= <-]. lia.
  - destruct (parmTypes !! hight) as [wanted|]; [|discriminate].
    destruct (negb (String.eqb (CType item) wanted)); [discriminate|].
    unfold convert_item.
    destruct (NewValue eng (Value item)) as [val|err];
      repeat (destruct (String.eqb (CType item) _)); try discriminate;
      intros H; apply IH in H; rewrite H, length_app; simpl; lia.
Qed.

(** Within the signature the loop never faults. *)
Lemma convert_from_no_fault eng parmTypes reqparms :
  forall hight done p,
  (hight + length reqparms <= length parmTypes)%nat ->
  convert_from eng parmTypes hight reqparms done <> Fault p.
Proof.
  induction reqparms as [|item rest IH]; intros hight done p Hlen; simpl.
  - discriminate.
  - simpl in Hlen.
    destruct (parmTypes !! hight) as [wanted|] eqn:Hw.
    + destruct (negb (String.eqb (CType item) wanted)); [discriminate|].
      unfold convert_item.
      destruct (NewValue eng (Value item)) as [val|err];
        repeat (destruct (String.eqb (CType item) _)); try discriminate;
        apply IH; lia.
    + apply lookup_ge_None in Hw. lia.
Qed.

(** The turn at index [hight], alone. *)
Lemma convert_from_one eng parmTypes hight item done wanted :
  parmTypes !! hight = Some wanted ->
  convert_from eng parmTypes hight [item] done =
    if negb (String.eqb (CType item) wanted) then Err not_same_parameter
    else convert_item eng item done.
Proof.
  intros Hw. simpl. rewrite Hw.
  destruct (negb (String.eqb (CType item) wanted)); [reflexivity|].
  destruct (convert_item eng item done); reflexivity.
Qed.

(** The list cut at one of its indices. *)
Lemma split_at {A} (l : list A) i x :
  l !! i = Some x -> l = take i l ++ x :: drop (S i) l.
Proof. intros H. symmetry. apply take_drop_middle. exact H. Qed.

(** Entries behind the ones the loop reads do not matter. *)
Lemma convert_from_longer_signature eng parmTypes more reqparms :
  forall hight done,
  (forall p, convert_from eng parmTypes hight reqparms done <> Fault p) ->
  convert_from eng (parmTypes ++ more) hight reqparms done
  = convert_from eng parmTypes hight reqparms done.
Proof.
  induction reqparms as [|item rest IH]; intros hight done Hsafe;
    [reflexivity|].
  simpl in *. destruct (parmTypes !! hight) as [wanted|] eqn:Hw.
  - rewrite (lookup_app_l_Some _ _ _ _ Hw).
    destruct (negb (String.eqb (CType item) wanted)); [reflexivity|].
    destruct (convert_item eng item done) as [done'| |]; try reflexivity.
    apply IH. exact Hsafe.
  - exfalso. exact (Hsafe _ eq_refl).
Qed.

Lemma convert_item_result eng item done :
  match convert_item eng item done with
  | Ok done' => exists val, done' = done ++ [val]
  | Err e =>
      e = unsuported_datatype
      \/ exists err, NewValue eng (Value item) = inr err /\ e = wrapped err
  | Fault _ => False
  end.
Proof.
  unfold convert_item.
  destruct (NewValue eng (Value item)) as [val|err] eqn:Hnew;
    repeat (destruct (String.eqb (CType item) _));
    eauto.
Qed.

Lemma convert_from_error eng parmTypes reqparms :
  forall hight done e,
  convert_from eng parmTypes hight reqparms done = Err e ->
  e = not_same_parameter
  \/ e = unsuported_datatype
  \/ exists item err,
       item ∈ reqparms /\ NewValue eng (Value item) = inr err
       /\ e = wrapped err.
Proof.
  induction reqparms as [|item rest IH]; intros hight done e; simpl;
    [discriminate|].
  destruct (parmTypes !! hight) as [wanted|]; [|discriminate].
  destruct (negb (String.eqb (CType item) wanted)).
  - intros [= <-]. left. reflexivity.
  - pose proof (convert_item_result eng item done) as Hitem.
    destruct (convert_item eng item done) as [done'|e'|p].
    + intros H. apply IH in H as [H|[H|[item' [err [Hin H]]]]]; auto.
      right. right. exists item', err. split; [|exact H].
      apply elem_of_cons. right. exact Hin.
    + intros [= <-]. destruct Hitem as [->|[err [Hnew ->]]]; auto.
      right. right. exists item, err. repeat split; [|exact Hnew].
      apply elem_of_cons. left. reflexivity.
    + destruct Hitem.
Qed.

Lemma convert_from_fault eng parmTypes reqparms :
  forall hight done p,
  (hight <= length parmTypes)%nat ->
  convert_from eng parmTypes hight reqparms done = Fault p ->
  p = IndexOutOfRange (length parmTypes) (length parmTypes)
  /\ (length parmTypes < hight + length reqparms)%nat.
Proof.
  induction reqparms as [|item rest IH]; intros hight done p Hle; simpl;
    [discriminate|].
  destruct (parmTypes !! hight) as [wanted|] eqn:Hw.
  - apply lookup_lt_Some in Hw.
    destruct (negb (String.eqb (CType item) wanted)); [discriminate|].
    pose proof (convert_item_result eng item done) as Hitem.
    destruct (convert_item eng item done) as [done'|e'|q];
      [|discriminate|destruct Hitem].
    intros H. apply IH in H as [-> Hlen]; [|lia]. split; [reflexivity|lia].
  - apply lookup_ge_None in Hw. intros [= <-].
    replace hight with (length parmTypes) by lia. split; [reflexivity|lia].
Qed.

End MarshalFacts.

Module MarshalClaims.
Import Marshal MarshalFacts.

(** C7, the claim as stated, fails at explicit inputs.  A mismatch at index
    [0] is reported by a text that does not contain the index; a mismatch at
    index [1] behind an unsupported tag is reported as an unsupported type;
    and a value of a supported tag that the engine refuses is not converted. *)
Lemma convert_params_as_stated_fails :
  ~ (exists e,
       convertRequestParametersToV8Parameters Sample.engine ["string"]
         [Sample.number 1] = Err e /\ names_index e 0 = true)
  /\ convertRequestParametersToV8Parameters Sample.engine ["tuple"; "string"]
       [ {| CType := "tuple"; Value := GoNil |}; Sample.number 1 ]
     <> Err not_same_parameter
  /\ ~ (exists vals,
          convertRequestParametersToV8Parameters Sample.engine ["array"]
            [ {| CType := "array"; Value := GoSlice [GoNumber 1] |} ]
          = Ok vals).
Proof.
  split; [|split].
  - intros [e [H Hname]]. vm_compute in H. injection H as <-.
    vm_compute in Hname. discriminate Hname.
  - vm_compute. discriminate.
  - intros [vals H]. vm_compute in H. discriminate H.
Qed.

(** C7, amended.  At an index [i] that the loop reaches (every parameter
    before it was converted): a tag that differs from [parmTypes[i]] ends
    the operation with the fixed error "not same parameter", which carries
    no values and does not name [i]; an equal tag outside the six supported
    ones ends it with the error "unsuported datatype"; an equal tag among
    the six hands the value to the engine, whose error is returned wrapped
    and whose value is appended to the converted values. *)
Theorem convert_params_at_index eng parmTypes reqparms i item wanted done :
  reqparms !! i = Some item ->
  parmTypes !! i = Some wanted ->
  convertRequestParametersToV8Parameters eng parmTypes (take i reqparms)
    = Ok done ->
  (CType item <> wanted ->
     convertRequestParametersToV8Parameters eng parmTypes reqparms
       = Err not_same_parameter)
  /\ (CType item = wanted -> CType item ∉ supported_tags ->
     convertRequestParametersToV8Parameters eng parmTypes reqparms
       = Err unsuported_datatype)
  /\ (CType item = wanted -> CType item ∈ supported_tags ->
     forall err, NewValue eng (Value item) = inr err ->
     convertRequestParametersToV8Parameters eng parmTypes reqparms
       = Err (wrapped err))
  /\ (CType item = wanted -> CType item ∈ supported_tags ->
     forall val, NewValue eng (Value item) = inl val ->
     convertRequestParametersToV8Parameters eng parmTypes
       (take (S i) reqparms) = Ok (done ++ [val])).
Proof.
  intros Hitem Hwanted Hfront.
  assert (Hi : length (take i reqparms) = i).
  { apply lookup_lt_Some in Hitem. rewrite length_take. lia. }
  assert (Hturn : forall back,
    convertRequestParametersToV8Parameters eng parmTypes
      (take i reqparms ++ item :: back) =
    match (if negb (String.eqb (CType item) wanted)
           then Err not_same_parameter
           else convert_item eng item done) with
    | Ok done' => convert_from eng parmTypes (i + 1) back done'
    | other => other
    end).
  { intros back. unfold convertRequestParametersToV8Parameters in *.
    change (item :: back) with ([item] ++ back).
    rewrite convert_from_app, Hfront, Hi. change (0 + i)%nat with i.
    rewrite convert_from_app, (convert_from_one _ _ _ _ _ wanted Hwanted).
    reflexivity. }
  pose proof (Hturn (drop (S i) reqparms)) as Hfull.
  rewrite <- (split_at reqparms i item Hitem) in Hfull.
  pose proof (Hturn []) as Hcut.
  rewrite <- (take_S_r _ _ _ Hitem) in Hcut.
  rewrite Hfull, Hcut. clear Hfull Hcut Hturn.
  repeat split.
  - intros Hne. apply String.eqb_neq in Hne. rewrite Hne. reflexivity.
  - intros Heq Hout. apply String.eqb_eq in Heq. rewrite Heq. simpl.
    rewrite convert_item_unsupported by assumption. reflexivity.
  - intros Heq Hin err Herr. apply String.eqb_eq in Heq. rewrite Heq. simpl.
    rewrite convert_item_supported, Herr by assumption. reflexivity.
  - intros Heq Hin val Hval. apply String.eqb_eq in Heq. rewrite Heq. simpl.
    rewrite convert_item_supported, Hval by assumption. reflexivity.
Qed.

Lemma convert_params_at_index_witness :
  convertRequestParametersToV8Parameters Sample.engine ["number"; "string"]
    [Sample.number 2; Sample.number 3] = Err not_same_parameter
  /\ convertRequestParametersToV8Parameters Sample.engine ["number"; "number"]
       (take 2 [Sample.number 2; Sample.number 3])
     = Ok ([V8Number 2] ++ [V8Number 3]).
Proof.
  split.
  - apply (convert_params_at_index Sample.engine ["number"; "string"]
             [Sample.number 2; Sample.number 3] 1 (Sample.number 3)
             "string" [V8Number 2]); [reflexivity..|].
    simpl. discriminate.
  - apply (convert_params_at_index Sample.engine ["number"; "number"]
             [Sample.number 2; Sample.number 3] 1 (Sample.number 3)
             "number" [V8Number 2]); [reflexivity..| |reflexivity].
    apply (bool_decide_unpack _). vm_compute. exact I.
Defined.

(** C8, the claim as stated, fails at an explicit input: two parameters
    against a signature of one do not fault when the first parameter is
    refused. *)
Lemma convert_params_longer_than_signature_no_fault :
  (length ["string"] < length [Sample.number 1; Sample.number 2])%nat
  /\ ~ (exists p,
          convertRequestParametersToV8Parameters Sample.engine ["string"]
            [Sample.number 1; Sample.number 2] = Fault p).
Proof.
  split; [simpl; lia|].
  intros [p H]. vm_compute in H. discriminate H.
Qed.

(** C8, amended.  With no more parameters than signature entries the
    operation never faults, returns one value per parameter when it
    succeeds, and is decided by the signature entries that have a
    parameter alone: the entries behind them change neither the values nor
    the error, so a longer signature goes unnoticed.  With more parameters
    than signature entries, the outcome is decided by the parameters that
    do have a signature entry: if they are all converted, the access
    [parmTypes[len(parmTypes)]] faults; otherwise their error is returned
    and nothing faults.  An error, whatever the lengths, is "not same
    parameter", "unsuported datatype" or the wrapped error of the engine
    for the value of a parameter; none is about the number of
    parameters. *)
Theorem convert_params_arity eng parmTypes reqparms :
  ((length reqparms <= length parmTypes)%nat ->
     convertRequestParametersToV8Parameters eng parmTypes reqparms
     = convertRequestParametersToV8Parameters eng
         (take (length reqparms) parmTypes) reqparms
     /\ (forall p,
           convertRequestParametersToV8Parameters eng parmTypes reqparms
           <> Fault p)
     /\ (forall vals,
           convertRequestParametersToV8Parameters eng parmTypes reqparms
           = Ok vals -> length vals = length reqparms))
  /\ ((length parmTypes < length reqparms)%nat ->
     convertRequestParametersToV8Parameters eng parmTypes reqparms =
       match convertRequestParametersToV8Parameters eng parmTypes
               (take (length parmTypes) reqparms) with
       | Ok _ =>
           Fault (IndexOutOfRange (length parmTypes) (length parmTypes))
       | other => other
       end)
  /\ (forall e,
        convertRequestParametersToV8Parameters eng parmTypes reqparms = Err e ->
        e = not_same_parameter
        \/ e = unsuported_datatype
        \/ exists item err,
             item ∈ reqparms /\ NewValue eng (Value item) = inr err
             /\ e = wrapped err).
Proof.
  unfold convertRequestParametersToV8Parameters. split; [|split].
  - intros Hlen. split; [|split].
    + rewrite <- (take_drop (length reqparms) parmTypes) at 1.
      apply convert_from_longer_signature. intros p.
      apply convert_from_no_fault. rewrite length_take. simpl. lia.
    + intros p. apply convert_from_no_fault. simpl. exact Hlen.
    + intros vals H. apply convert_from_length in H. simpl in H. exact H.
  - intros Hlen.
    rewrite <- (take_drop (length parmTypes) reqparms) at 1.
    rewrite convert_from_app.
    destruct (convert_from eng parmTypes 0 (take (length parmTypes) reqparms) [])
      as [done|e|p]; try reflexivity.
    rewrite length_take, Nat.min_l by lia. simpl.
    destruct (drop (length parmTypes) reqparms) as [|item rest] eqn:Hdrop.
    + apply (f_equal length) in Hdrop. rewrite length_drop in Hdrop.
      simpl in Hdrop. lia.
    + simpl. rewrite (proj2 (lookup_ge_None parmTypes (length parmTypes)))
        by lia. reflexivity.
  - intros e H. exact (convert_from_error _ _ _ _ _ _ H).
Qed.

Lemma convert_params_arity_witness :
  (convertRequestParametersToV8Parameters Sample.engine
     ["number"; "string"] [Sample.number 1]
   = convertRequestParametersToV8Parameters Sample.engine
       (take (length [Sample.number 1]) ["number"; "string"])
       [Sample.number 1]
   /\ convertRequestParametersToV8Parameters Sample.engine
        ["number"; "string"] [Sample.number 1] = Ok [V8Number 1])
  /\ convertRequestParametersToV8Parameters Sample.engine ["number"]
       [Sample.number 1; Sample.number 2]
     = Fault (IndexOutOfRange 1 1)
  /\ (Marshal.not_same_parameter = not_same_parameter
      \/ Marshal.not_same_parameter = unsuported_datatype
      \/ exists item err,
           item ∈ [Sample.number 1]
           /\ NewValue Sample.engine (Value item) = inr err
           /\ Marshal.not_same_parameter = wrapped err).
Proof.
  split; [split|split].
  - apply (convert_params_arity Sample.engine ["number"; "string"]
             [Sample.number 1]). simpl. lia.
  - reflexivity.
  - apply (convert_params_arity Sample.engine ["number"]
             [Sample.number 1; Sample.number 2]). simpl. lia.
  - apply (convert_params_arity Sample.engine ["string"] [Sample.number 1]).
    reflexivity.
Defined.

End MarshalClaims.

(** ** The request object *)

Module RequestObjectFacts.
Import RequestObject.

Lemma obj_get_set_eq key value props :
  obj_get key (obj_set key value props) = Some value.
Proof.
  induction props as [|[k v] rest IH]; simpl.
  - rewrite String.eqb_refl. reflexivity.
  - destruct (String.eqb k key) eqn:Hk; simpl; rewrite Hk; auto.
Qed.

Lemma obj_get_set_ne key key' value props :
  key <> key' ->
  obj_get key' (obj_set key value props) = obj_get key' props.
Proof.
  intros Hne. induction props as [|[k v] rest IH]; simpl.
  - apply String.eqb_neq in Hne. rewrite Hne. reflexivity.
  - destruct (String.eqb k key) eqn:Hk; simpl.
    + apply String.eqb_eq in Hk. subst k.
      apply String.eqb_neq in Hne. rewrite Hne. reflexivity.
    + destruct (String.eqb k key'); auto.
Qed.

Section WithEngine.

Variable eng : Engine.
Variable utils : Utils.
Variable IsHttpRequest : RpcRequest -> bool.

(** An instance has the properties of its template, none of them twice. *)
Lemma new_instance_ok tmpl obj :
  new_instance eng tmpl = Ok obj ->
  obj = tmpl /\ repeated_name (V8Object tmpl) = false.
Proof.
  unfold new_instance.
  destruct (repeated_name (V8Object tmpl)); [discriminate|].
  destruct (NewInstance eng tmpl); [discriminate|].
  intros [= <-]. split; reflexivity.
Qed.

Lemma holds_length v elems : holds eng v elems -> length elems = length v.
Proof. intros H. symmetry. exact (Forall2_length _ _ _ H). Qed.

Lemma push_values_array v :
  forall elems filled,
  push_values eng utils v (V8Array elems) = Ok filled ->
  exists pushed, filled = V8Array (elems ++ pushed) /\ holds eng v pushed.
Proof.
  induction v as [|value rest IH]; intros elems filled; simpl.
  - intros [= <-]. exists []. rewrite app_nil_r. split; [reflexivity|constructor].
  - destruct (NewValue eng (GoString value)) as [v8Value|err] eqn:Hnew;
      [|discriminate].
    intros H. apply IH in H as [pushed [-> Hrest]].
    exists (v8Value :: pushed). rewrite <- app_assoc. split; [reflexivity|].
    constructor; assumption.
Qed.

(** The header loop, for any order of iteration over distinct names. *)
Lemma add_headers_entries entries :
  literal_is_empty_array eng ->
  NoDup entries.*1 ->
  forall headers headers',
  add_headers eng utils entries headers = Ok headers' ->
  (forall k v, (k, v) ∈ entries ->
     exists elems, obj_get k headers' = Some (V8Array elems) /\ holds eng v elems)
  /\ (forall k, k ∉ entries.*1 -> obj_get k headers' = obj_get k headers).
Proof.
  intros Hlit. induction entries as [|[k v] rest IH]; intros Hnodup headers headers'.
  - simpl. intros [= <-]. split; [|reflexivity].
    intros k v H. apply elem_of_nil in H. destruct H.
  - simpl. simpl in Hnodup. apply NoDup_cons in Hnodup as [Hfresh Hnodup].
    destruct (RunScript eng slice_source "slice.js") as [sliceV8|err] eqn:Hrun;
      [|discriminate].
    apply Hlit in Hrun. subst sliceV8. simpl.
    destruct (push_values eng utils v (V8Array [])) as [filled| |] eqn:Hpush;
      try discriminate.
    apply push_values_array in Hpush as [pushed [-> Hheld]]. simpl in *.
    unfold object_set.
    destruct (ObjectSet eng k (V8Array pushed)); [discriminate|].
    intros Hrest. destruct (IH Hnodup _ _ Hrest) as [Hin Hout].
    split.
    + intros k' v' Hmem. apply elem_of_cons in Hmem as [[= -> ->]|Hmem].
      * exists pushed. split; [|exact Hheld].
        rewrite (Hout k Hfresh). apply obj_get_set_eq.
      * apply Hin. exact Hmem.
    + intros k' Hk'. apply not_elem_of_cons in Hk' as [Hne Hk'].
      rewrite (Hout k' Hk'). apply obj_get_set_ne. congruence.
Qed.

Lemma http_case_headers h entries obj obj' :
  literal_is_empty_array eng ->
  NoDup entries.*1 ->
  http_case eng utils h entries obj = Ok obj' ->
  exists http headers,
    obj_get "http" obj' = Some (V8Object http)
    /\ obj_get "Headers" http = Some (V8Object headers)
    /\ forall k v, (k, v) ∈ entries ->
         exists elems,
           obj_get k headers = Some (V8Array elems) /\ holds eng v elems.
Proof.
  intros Hlit Hnodup. unfold http_case, object_set.
  destruct (add_cookies eng utils (Cookies h) []) as [cookies| |];
    try discriminate.
  destruct (new_instance eng []) as [headers0| |] eqn:Hempty;
    try discriminate.
  apply new_instance_ok in Hempty as [-> _].
  destruct (add_headers eng utils entries []) as [headers| |] eqn:Hheaders;
    try discriminate.
  destruct (set_all eng utils (http_fields h cookies) []) as [httpObj| |];
    try discriminate.
  destruct (new_instance eng httpObj) as [http| |] eqn:Hinst;
    try discriminate.
  apply new_instance_ok in Hinst as [-> _].
  destruct (ObjectSet eng "Headers" (V8Object headers)); [discriminate|].
  destruct (ObjectSet eng "http" _); [discriminate|].
  intros [= <-].
  exists (obj_set "Headers" (V8Object headers) httpObj), headers.
  split; [apply obj_get_set_eq|]. split; [apply obj_get_set_eq|].
  apply (add_headers_entries entries Hlit Hnodup [] headers Hheaders).
Qed.

End WithEngine.
End RequestObjectFacts.

Module RequestObjectClaims.
Import RequestObject RequestObjectFacts.

(** C9.  Whenever the request object of an HTTP request is built, its
    [http.Headers] has, for every header name [k] of the request, an array
    with one element per value of [k], namely the engine values of those
    strings in order; so the array is as long as the list of values, and a
    single-valued header yields an array of length one. *)
Theorem header_multiplicity eng utils IsHttpRequest rrpcrequest h obj k v :
  literal_is_empty_array eng ->
  RequestType rrpcrequest = HTTP_REQUEST ->
  HttpRequestOf rrpcrequest = Some h ->
  v8makeSharedFunctionObject eng utils IsHttpRequest rrpcrequest = Ok obj ->
  Header h !! k = Some v ->
  exists props http headers elems,
    obj = V8Object props
    /\ obj_get "http" props = Some (V8Object http)
    /\ obj_get "Headers" http = Some (V8Object headers)
    /\ obj_get k headers = Some (V8Array elems)
    /\ holds eng v elems
    /\ length elems = length v.
Proof.
  intros Hlit Htype Hhttp Hbuilt Hk.
  unfold v8makeSharedFunctionObject, connection_switch, template_set,
    object_set in Hbuilt.
  rewrite Htype, Hhttp in Hbuilt.
  repeat match type of Hbuilt with
  | context [match TemplateSet ?e ?a ?b with _ => _ end] =>
      destruct (TemplateSet e a b); [discriminate|]
  | context [match new_instance ?e ?a with _ => _ end] =>
      destruct (new_instance e a); try discriminate
  end.
  destruct (negb (IsHttpRequest rrpcrequest)); [discriminate|].
  destruct (http_case eng utils h (map_to_list (Header h)) _)
    as [obj1| |] eqn:Hcase; try discriminate.
  destruct (NewValue eng (GoString "http")) as [val|]; [|discriminate].
  destruct (ObjectSet eng "CallMethode" val); [discriminate|].
  injection Hbuilt as <-.
  apply http_case_headers in Hcase as [http [headers [Hget [Hheaders Hall]]]];
    [|exact Hlit|apply NoDup_fst_map_to_list].
  destruct (Hall k v) as [elems [Helems Hheld]].
  { apply elem_of_map_to_list. exact Hk. }
  exists (obj_set "CallMethode" val obj1), http, headers, elems.
  split; [reflexivity|]. split.
  { rewrite obj_get_set_ne by discriminate. exact Hget. }
  repeat split; try assumption. apply (holds_length eng). exact Hheld.
Qed.

Lemma header_multiplicity_witness :
  exists props http headers elems,
    RequestObject.v8makeSharedFunctionObject Sample.engine Sample.utils
      Sample.isHttpRequest (Sample.http_request []) = Ok (V8Object props)
    /\ obj_get "http" props = Some (V8Object http)
    /\ obj_get "Headers" http = Some (V8Object headers)
    /\ obj_get "X-F" headers = Some (V8Array elems)
    /\ length elems = length ["a"; "b"].
Proof.
  destruct (header_multiplicity Sample.engine Sample.utils
              Sample.isHttpRequest (Sample.http_request []) Sample.http_part
              (V8Object
                 [("Resolve", V8HostFunction resolveFunctionCallbackV8);
                  ("Reject", V8HostFunction rejectFunctionCallbackV8);
                  ("http",
                   V8Object
                     [("IsConnected", V8HostFunction isConnected);
                      ("ContentLength", V8Number 0);
                      ("Host", V8String "localhost");
                      ("Proto", V8String "HTTP/1.1");
                      ("RemoteAddr", V8String "127.0.0.1:4000");
                      ("RequestURI", V8String "/rpc");
                      ("Cookies",
                       V8Object
                         [("s",
                           V8Object
                             [("Value", V8String "1");
                              ("Domain", V8String "d");
                              ("Path", V8String "/");
                              ("Expires", V8String "e")])]);
                      ("Headers",
                       V8Object
                         [("X-F", V8Array [V8String "a"; V8String "b"])])]);
                  ("CallMethode", V8String "http")])
              "X-F" ["a"; "b"])
    as [props [http [headers [elems [Hobj [H1 [H2 [H3 [_ H4]]]]]]]]].
  - intros sliceV8 H. vm_compute in H. injection H as <-. reflexivity.
  - reflexivity.
  - reflexivity.
  - vm_compute. reflexivity.
  - vm_compute. reflexivity.
  - exists props, http, headers, elems. rewrite <- Hobj.
    split; [vm_compute; reflexivity|]. tauto.
Defined.

End RequestObjectClaims.

(** ** The task bodies *)

Module PipelineFacts.

(** A loop with nothing waiting stays as it is. *)
Lemma run_idle eng utils IsHttpRequest kernel source o req state turns m :
  Loop.queue m = [] ->
  Loop.run eng utils IsHttpRequest kernel source o req state turns m = m.
Proof.
  intros Hidle. induction turns as [|n IH]; simpl; [reflexivity|].
  replace (Loop.step eng utils IsHttpRequest kernel source o req state m)
    with m; [exact IH|].
  unfold Loop.step. rewrite Hidle. destruct (Loop.crashed m); reflexivity.
Qed.

End PipelineFacts.

Module PipelineClaims.
Import Pipeline PipelineFacts.

(** C10.  [callInKernelEventLoopCheck] returns nil whatever the state of
    the promise, so the body of the task of [functionCallInEventloopFinall]
    never calls [klopr.SetError] and calls [klopr.SetResult(nil)] on every
    execution; the call is the last thing it does. *)
Theorem check_returns_nil prom state :
  snd (callInKernelEventLoopCheck prom state) = None
  /\ events (finall_body prom state)
     = fst (callInKernelEventLoopCheck prom state) ++ [SetResult]
  /\ existsb Loop.is_set_error (events (finall_body prom state)) = false
  /\ existsb Loop.is_set_result (events (finall_body prom state)) = true
  /\ completion (finall_body prom state) = Returned.
Proof. destruct state; repeat split. Qed.

(** C5.  The poll, by the state of the promise.  Pending: one goroutine
    that sleeps 1 ms (1000000 ns) and then submits the same poll of the same
    promise, which the loop takes up if the kernel accepts it; nothing is
    submitted from the engine thread.  Rejected: one microtask checkpoint
    and nothing else.  Fulfilled: nothing.  In no state does the poll call
    a terminator, so it leaves every request context as it finds it, and it
    always returns nil. *)
Theorem poll_by_state eng utils IsHttpRequest kernel source o req prom state :
  callInKernelEventLoopCheck prom state =
    (match state with
     | Pending => [Go 1000000 (CheckTask prom)]
     | Rejected => [PerformMicrotaskCheckpoint]
     | Fulfilled => []
     end, None)
  /\ check_body prom state =
       {| events := fst (callInKernelEventLoopCheck prom state);
          completion := Returned |}
  /\ (forall states,
        body eng utils IsHttpRequest kernel source o req states (CheckTask prom)
        = check_body prom (states prom))
  /\ Loop.enqueued kernel (fst (callInKernelEventLoopCheck prom state)) =
       match state, AddToEventLoop kernel (CheckTask prom) with
       | Pending, None => [CheckTask prom]
       | _, _ => []
       end
  /\ Context.signals_of (fst (callInKernelEventLoopCheck prom state)) = []
  /\ (forall final c,
        Context.deliver final
          (Context.signals_of (events (check_body prom state))) c = c).
Proof.
  destruct state; simpl; repeat split;
    destruct (AddToEventLoop kernel (CheckTask prom)); reflexivity.
Qed.

(** C6.  On a promise, the body of the fourth task first attaches
    [then(onFulfilled, onRejected)] to the promise and then [catch] with the
    same [onRejected] to the promise that [then] returned.  [onFulfilled]
    calls [functionCallFinal()], [onRejected] calls [functionCallException]
    with the text of the rejection reason, and both hand [undefined] back
    to the engine. *)
Theorem settlement_callbacks eng kernel h handle :
  exists onFulfilled onRejected rest,
    events (promise_operation_body eng kernel (V8Promise handle))
    = Then handle onFulfilled onRejected
        :: Catch (ThenHandle eng handle) onRejected :: rest
    /\ completion (promise_operation_body eng kernel (V8Promise handle))
       = Returned
    /\ (forall args,
          Callbacks.invoke eng h onFulfilled args =
            Some (Ok {| Callbacks.effects := [Terminator functionCallFinal];
                        Callbacks.returns := Some V8Undefined |}))
    /\ (forall reason args,
          Callbacks.invoke eng h onRejected (reason :: args) =
            Some (Ok {| Callbacks.effects :=
                          [Terminator
                             (functionCallException (ValueString eng reason))];
                        Callbacks.returns := Some V8Undefined |})).
Proof.
  exists funcFinal, throwProm.
  unfold promise_operation_body, functionCallInEventloopFinall,
    add_to_event_loop. simpl.
  destruct (AddToEventLoop kernel _) as [[msg|msg]|]; simpl;
    eexists; repeat split.
Qed.

(** C4, the claim as stated, fails at an explicit input: on [undefined]
    the body of the fourth task panics; it does not return and it calls no
    terminator, so no aborted state is emitted. *)
Lemma non_promise_is_not_aborted :
  promise_operation_body Sample.engine Sample.kernel V8Undefined
    = {| events := []; completion := Panicked (PanicString "isnr promise") |}
  /\ ~ (completion
          (promise_operation_body Sample.engine Sample.kernel V8Undefined)
        = Returned
        /\ In (writeRequestReturnResponse
                 {| Error := "contract violation"; State := "aborted" |})
              (Context.signals_of
                 (events
                    (promise_operation_body Sample.engine Sample.kernel
                       V8Undefined)))).
Proof.
  split; [reflexivity|]. intros [H _]. discriminate H.
Qed.

(** C4, amended.  When the value the wrapper returned is not a promise, the
    body of the fourth task panics with the text "isnr promise" before it
    does anything else: no callback is attached, no terminator and no
    setter is called, and no further task is submitted. *)
Theorem non_promise_panics eng kernel result :
  IsPromise result = false ->
  promise_operation_body eng kernel result
    = {| events := []; completion := Panicked (PanicString "isnr promise") |}.
Proof.
  intros H. unfold promise_operation_body. rewrite H. reflexivity.
Qed.

Lemma non_promise_panics_witness :
  promise_operation_body Sample.careless_engine Sample.kernel (V8Number 7)
    = {| events := []; completion := Panicked (PanicString "isnr promise") |}.
Proof.
  apply (non_promise_panics Sample.careless_engine Sample.kernel (V8Number 7)).
  reflexivity.
Defined.

(** C2, the claim as stated, fails at an explicit input: when the call of
    the wrapper returns an error, the body of the third task panics with
    it; the error setter is not called and no terminator is called. *)
Lemma wrapper_throw_is_not_captured :
  call_body Sample.throwing_engine Sample.kernel
      (V8ScriptFunction Sample.proxy_source) []
    = {| events := [Called (V8ScriptFunction Sample.proxy_source) []];
         completion := Panicked (PanicError (ErrorString "Error: boom")) |}
  /\ ~ (completion
          (call_body Sample.throwing_engine Sample.kernel
             (V8ScriptFunction Sample.proxy_source) [])
        = Returned
        /\ existsb Loop.is_set_error
             (events
                (call_body Sample.throwing_engine Sample.kernel
                   (V8ScriptFunction Sample.proxy_source) []))
           = true).
Proof.
  split; [reflexivity|]. intros [H _]. discriminate H.
Qed.

(** C2, amended.  When the call of the wrapper returns an error, the body
    of the third task panics with that error right after the call: it
    calls neither setter and no terminator, and the fourth task is not
    submitted. *)
Theorem wrapper_throw_panics eng kernel proxFunction proxArguments err :
  Call eng proxFunction proxArguments = inr err ->
  call_body eng kernel proxFunction proxArguments
    = {| events := [Called proxFunction proxArguments];
         completion := Panicked (PanicError err) |}.
Proof.
  intros H. unfold call_body. rewrite H. reflexivity.
Qed.

Lemma wrapper_throw_panics_witness :
  call_body Sample.throwing_engine Sample.kernel
      (V8ScriptFunction Sample.proxy_source) [V8Number 1]
    = {| events := [Called (V8ScriptFunction Sample.proxy_source) [V8Number 1]];
         completion := Panicked (PanicError (ErrorString "Error: boom")) |}.
Proof.
  apply (wrapper_throw_panics Sample.throwing_engine Sample.kernel
           (V8ScriptFunction Sample.proxy_source) [V8Number 1]
           (ErrorString "Error: boom")).
  reflexivity.
Defined.

(** C3, the claim as stated, fails at an explicit input: a number given to
    a function that wants a string makes the marshalling fail, and the body
    of the first task returns without calling the error setter or a
    terminator; the loop then has nothing to do and nothing has happened. *)
Lemma type_mismatch_is_not_reported :
  Marshal.convertRequestParametersToV8Parameters Sample.engine
      (signature_Params Sample.greet)
      (Parms (Sample.ipc_request [Sample.number 1]))
    = Err Marshal.not_same_parameter
  /\ init_body Sample.engine Sample.utils Sample.isHttpRequest Sample.kernel
       Sample.greet (Sample.ipc_request [Sample.number 1])
     = {| events := []; completion := Returned |}
  /\ ~ (existsb Loop.is_set_error
          (Loop.log
             (Loop.run Sample.engine Sample.utils Sample.isHttpRequest
                Sample.kernel Sample.proxy_source Sample.greet
                (Sample.ipc_request [Sample.number 1])
                (Sample.always Pending) 5 Loop.start))
        = true)
  /\ ~ (exists s,
          In s
            (Context.signals_of
               (Loop.log
                  (Loop.run Sample.engine Sample.utils Sample.isHttpRequest
                     Sample.kernel Sample.proxy_source Sample.greet
                     (Sample.ipc_request [Sample.number 1])
                     (Sample.always Pending) 5 Loop.start)))).
Proof.
  repeat split.
  - vm_compute. discriminate.
  - vm_compute. intros [s []].
Qed.

(** C3, amended.  When the first step fails (the marshalling returns an
    error, or the construction of the request object does), the body of
    the first task returns at once: it calls neither setter and no
    terminator and submits nothing.  The loop of the call then stays empty,
    so the wrapper, and with it the user function, is never called. *)
Theorem prepare_failure_is_silent
    eng utils IsHttpRequest kernel source o req state :
  (exists e,
     Marshal.convertRequestParametersToV8Parameters eng (signature_Params o)
       (Parms req) = Err e)
  \/ (exists vals e,
     Marshal.convertRequestParametersToV8Parameters eng (signature_Params o)
       (Parms req) = Ok vals
     /\ RequestObject.v8makeSharedFunctionObject eng utils IsHttpRequest req
        = Err e) ->
  init_body eng utils IsHttpRequest kernel o req
    = {| events := []; completion := Returned |}
  /\ forall turns,
       Loop.run eng utils IsHttpRequest kernel source o req state (S turns)
         Loop.start
       = {| Loop.queue := []; Loop.log := []; Loop.crashed := None;
            Loop.turn := 1 |}
       /\ existsb Loop.is_call
            (Loop.log
               (Loop.run eng utils IsHttpRequest kernel source o req state
                  turns Loop.start)) = false.
Proof.
  intros Hfail.
  assert (Hbody : init_body eng utils IsHttpRequest kernel o req
                  = {| events := []; completion := Returned |}).
  { unfold init_body.
    destruct Hfail as [[e ->]|[vals [e [-> ->]]]]; reflexivity. }
  split; [exact Hbody|].
  assert (Hrun : forall turns,
    Loop.run eng utils IsHttpRequest kernel source o req state (S turns)
      Loop.start
    = {| Loop.queue := []; Loop.log := []; Loop.crashed := None;
         Loop.turn := 1 |}).
  { intros turns. simpl. unfold Loop.step. simpl. rewrite Hbody. simpl.
    apply run_idle. reflexivity. }
  intros turns. split; [apply Hrun|].
  destruct turns as [|n]; [reflexivity|]. rewrite Hrun. reflexivity.
Qed.

Lemma prepare_failure_is_silent_witness :
  init_body Sample.engine Sample.utils Sample.isHttpRequest Sample.kernel
    Sample.greet (Sample.ipc_request [Sample.number 1])
  = {| events := []; completion := Returned |}.
Proof.
  apply (prepare_failure_is_silent Sample.engine Sample.utils
           Sample.isHttpRequest Sample.kernel Sample.proxy_source Sample.greet
           (Sample.ipc_request [Sample.number 1]) (Sample.always Pending)).
  left. exists Marshal.not_same_parameter. reflexivity.
Defined.

(** The same loop on well-typed parameters does reach the call of the
    wrapper, in its third turn. *)
Example well_typed_call_is_made :
  existsb Loop.is_call
    (Loop.log
       (Loop.run Sample.engine Sample.utils Sample.isHttpRequest Sample.kernel
          Sample.proxy_source Sample.add
          (Sample.ipc_request [Sample.number 2; Sample.number 3])
          (Sample.always Pending) 3 Loop.start)) = true.
Proof. vm_compute. reflexivity. Qed.

End PipelineClaims.


(** * Further properties *)

(** ** Parameter marshalling, continued *)

Module MarshalMoreFacts.
Import Marshal MarshalFacts Notions.

(** The loop succeeds exactly when every remaining parameter passes its
    turn against the signature entry at its index; the values are appended
    in order. *)
Lemma convert_from_ok eng parmTypes reqparms :
  forall hight done result,
  convert_from eng parmTypes hight reqparms done = Ok result <->
  exists vals,
    result = done ++ vals
    /\ (length reqparms <= length (drop hight parmTypes))%nat
    /\ Forall2 (fun p val => converts eng p.2 p.1 val)
         (zip reqparms (drop hight parmTypes)) vals.
Proof.
  induction reqparms as [|item rest IH]; intros hight done result.
  - simpl. split.
    + intros [= <-]. exists []. rewrite app_nil_r.
      repeat split; [lia|constructor].
    + intros [vals [-> [_ H]]]. apply Forall2_nil_inv_l in H. subst vals.
      rewrite app_nil_r. reflexivity.
  - simpl. destruct (parmTypes !! hight) as [wanted|] eqn:Hw.
    + rewrite (drop_S _ _ _ Hw). simpl.
      destruct (String.eqb_spec (CType item) wanted) as [Heq|Hne]; simpl.
      * destruct (decide (CType item ∈ supported_tags)) as [Hin|Hout].
        -- rewrite convert_item_supported by exact Hin.
           destruct (NewValue eng (Value item)) as [val|err] eqn:Hnew.
           ++ rewrite IH. split.
              ** intros [vals [-> [Hlen Hall]]]. exists (val :: vals).
                 rewrite <- app_assoc. repeat split; [simpl; lia|].
                 constructor; [|exact Hall]. repeat split; assumption.
              ** intros [vals [-> [Hlen Hall]]].
                 apply Forall2_cons_inv_l in Hall
                   as [val' [vals' [[_ [_ Hval]] [Hall ->]]]].
                 simpl in Hval. rewrite Hnew in Hval. injection Hval as <-.
                 exists vals'. rewrite <- app_assoc.
                 repeat split; [simpl in Hlen; lia|exact Hall].
           ++ split; [discriminate|].
              intros [vals [_ [_ Hall]]].
              apply Forall2_cons_inv_l in Hall
                as [val' [vals' [[_ [_ Hval]] _]]].
              simpl in Hval. congruence.
        -- rewrite convert_item_unsupported by exact Hout.
           split; [discriminate|].
           intros [vals [_ [_ Hall]]].
           apply Forall2_cons_inv_l in Hall
             as [val' [vals' [[_ [Hin _]] _]]].
           contradiction.
      * split; [discriminate|].
        intros [vals [_ [_ Hall]]].
        apply Forall2_cons_inv_l in Hall as [val' [vals' [[Heq _] _]]].
        contradiction.
    + split; [discriminate|].
      intros [vals [_ [Hlen _]]]. apply lookup_ge_None in Hw.
      rewrite length_drop in Hlen. simpl in Hlen. lia.
Qed.


(** Pairing a list in two parts with a second list. *)
Lemma zip_app_l {A B} (front back : list A) :
  forall l : list B,
  zip (front ++ back) l
  = zip front l ++ zip back (drop (length front) l).
Proof.
  induction front as [|x front IH]; intros [|y l]; simpl; try reflexivity.
  - destruct back; reflexivity.
  - rewrite IH. reflexivity.
Qed.

End MarshalMoreFacts.

Module MarshalMore.
Import Marshal MarshalFacts MarshalMoreFacts Notions.

(** The marshalling succeeds exactly when there are no more parameters
    than signature entries and every parameter carries the tag of the entry
    at its index, the tag is one of the six, and the engine converts the
    value; the result then holds the engine's values in the order of the
    parameters.  Fewer parameters than entries are accepted. *)
Theorem convert_params_ok_iff eng parmTypes reqparms vals :
  convertRequestParametersToV8Parameters eng parmTypes reqparms = Ok vals <->
  (length reqparms <= length parmTypes)%nat
  /\ Forall2 (fun p val => converts eng p.2 p.1 val)
       (zip reqparms parmTypes) vals.
Proof.
  unfold convertRequestParametersToV8Parameters.
  rewrite convert_from_ok. simpl. split.
  - intros [vals' [-> H]]. exact H.
  - intros H. exists vals. split; [reflexivity|exact H].
Qed.

Lemma convert_params_ok_iff_witness :
  convertRequestParametersToV8Parameters Sample.engine
    ["number"; "string"; "boolean"] [Sample.number 4; Sample.text "x"]
  = Ok [V8Number 4; V8String "x"].
Proof.
  apply (convert_params_ok_iff Sample.engine ["number"; "string"; "boolean"]
           [Sample.number 4; Sample.text "x"] [V8Number 4; V8String "x"]).
  split; [simpl; lia|].
  repeat constructor; apply (bool_decide_unpack _); vm_compute; exact I.
Defined.

(** A successful marshalling of a parameter list is also one of each of
    its front parts, with the matching front part of the values. *)
Theorem convert_params_front eng parmTypes reqparms vals n :
  convertRequestParametersToV8Parameters eng parmTypes reqparms = Ok vals ->
  convertRequestParametersToV8Parameters eng parmTypes (take n reqparms)
  = Ok (take n vals).
Proof.
  rewrite !convert_params_ok_iff. intros [Hlen Hall]. split.
  - rewrite length_take. lia.
  - rewrite <- (take_drop n reqparms), <- (take_drop n vals) in Hall.
    pose proof (zip_app_l (take n reqparms) (drop n reqparms) parmTypes) as Hzip.
    rewrite Hzip in Hall. apply Forall2_app_inv in Hall as [Hfront _];
      [exact Hfront|].
    pose proof (Forall2_length _ _ _ Hall) as Hl.
    rewrite !length_app, !length_zip_with, !length_take, !length_drop in Hl.
    rewrite length_zip_with, !length_take. lia.
Qed.

Lemma convert_params_front_witness :
  convertRequestParametersToV8Parameters Sample.engine ["number"; "number"]
    (take 1 [Sample.number 2; Sample.number 3])
  = Ok (take 1 [V8Number 2; V8Number 3]).
Proof.
  apply (convert_params_front Sample.engine ["number"; "number"]
           [Sample.number 2; Sample.number 3] [V8Number 2; V8Number 3] 1).
  reflexivity.
Defined.

(** Lengthening the signature changes no outcome other than a fault:
    the values or the error stay the same. *)
Theorem convert_params_longer_signature eng parmTypes more reqparms :
  (forall p,
     convertRequestParametersToV8Parameters eng parmTypes reqparms
     <> Fault p) ->
  convertRequestParametersToV8Parameters eng (parmTypes ++ more) reqparms
  = convertRequestParametersToV8Parameters eng parmTypes reqparms.
Proof.
  unfold convertRequestParametersToV8Parameters.
  apply convert_from_longer_signature.
Qed.

Lemma convert_params_longer_signature_witness :
  convertRequestParametersToV8Parameters Sample.engine
    (["string"] ++ ["number"]) [Sample.number 1]
  = convertRequestParametersToV8Parameters Sample.engine ["string"]
      [Sample.number 1].
Proof.
  apply (convert_params_longer_signature Sample.engine ["string"] ["number"]
           [Sample.number 1]).
  intros p. vm_compute. discriminate.
Defined.

End MarshalMore.

(** ** The request object, continued *)

Module RequestObjectMoreFacts.
Import RequestObject RequestObjectFacts Notions.

Lemma distinct_NoDup names : distinct names = true <-> NoDup names.
Proof.
  induction names as [|name rest IH]; simpl.
  - split; [constructor|reflexivity].
  - rewrite andb_true_iff, negb_true_iff, IH, NoDup_cons. split.
    + intros [Hfresh Hrest]. split; [|exact Hrest]. intros Hin.
      assert (existsb (String.eqb name) rest = true) as Hex.
      { apply existsb_exists. exists name. split.
        - apply list_elem_of_In. exact Hin.
        - apply String.eqb_refl. }
      congruence.
    + intros [Hfresh Hrest]. split; [|exact Hrest].
      apply not_true_is_false. intros Hex.
      apply existsb_exists in Hex as [name' [Hin Heq]].
      apply String.eqb_eq in Heq. subst name'.
      apply Hfresh, list_elem_of_In. exact Hin.
Qed.


(** Up to 2^53 in absolute value the conversion to [float64] is exact. *)
Lemma float64_of_int_exact n :
  (Z.abs n <= 9007199254740992)%Z -> float64_of_int n = n.
Proof.
  intros Hn. unfold float64_of_int.
  destruct (Z.ltb_spec (Z.abs n) 9007199254740992) as [_|Hge];
    [reflexivity|].
  assert (n = 9007199254740992 \/ n = (-9007199254740992))%Z as [->| ->]
    by lia; vm_compute; reflexivity.
Qed.

Section WithEngine.

Variable eng : Engine.
Variable utils : Utils.
Variable IsHttpRequest : RpcRequest -> bool.

Lemma holds_functional v elems elems' :
  holds eng v elems -> holds eng v elems' -> elems = elems'.
Proof.
  intros H. revert elems'.
  induction H as [|value elem v elems Hnew _ IH]; intros elems' H'.
  - apply Forall2_nil_inv_l in H'. congruence.
  - apply Forall2_cons_inv_l in H' as [elem' [rest [Hnew' [Hrest ->]]]].
    rewrite Hnew in Hnew'. injection Hnew' as <-.
    rewrite (IH _ Hrest). reflexivity.
Qed.

(** One turn of the cookie loop. *)
Lemma add_cookies_cons item rest cookies :
  add_cookies eng utils (item :: rest) cookies =
    match template_set eng (Name item) (V8Object (cookieObject eng item))
            cookies with
    | inr err => Err (MakeV8Error utils origin err)
    | inl cookies' => add_cookies eng utils rest cookies'
    end.
Proof. reflexivity. Qed.

(** The cookie loop adds one entry per cookie, in order, whatever names
    the template has already. *)
Lemma add_cookies_entries items :
  forall cookies cookies',
  add_cookies eng utils items cookies = Ok cookies' ->
  cookies' = cookies ++ map (cookie_entry eng) items.
Proof.
  induction items as [|item rest IH]; intros cookies cookies'.
  - simpl. intros [= <-]. rewrite app_nil_r. reflexivity.
  - rewrite add_cookies_cons. unfold template_set.
    destruct (TemplateSet eng (Name item) _); [discriminate|].
    intros H. apply IH in H. rewrite H, <- app_assoc. reflexivity.
Qed.

(** The template of a cookie never carries a name twice. *)
Lemma cookieObject_names item :
  repeated_name (V8Object (cookieObject eng item)) = false.
Proof.
  unfold cookieObject, template_set_unchecked, template_set.
  destruct (TemplateSet eng "Value" _), (TemplateSet eng "Domain" _),
    (TemplateSet eng "Path" _), (TemplateSet eng "Expires" _); reflexivity.
Qed.

(** The cookies template carries a name twice exactly when two cookies
    share their name. *)
Lemma cookies_names items :
  repeated_name (V8Object (map (cookie_entry eng) items))
  = negb (distinct (map Name items)).
Proof.
  cbn [repeated_name]. rewrite map_map. cbn [cookie_entry fst].
  replace (existsb (fun entry => repeated_name entry.2)
             (map (cookie_entry eng) items)) with false;
    [apply orb_false_r|].
  symmetry. induction items as [|item rest IH]; [reflexivity|].
  cbn [map existsb cookie_entry snd]. rewrite cookieObject_names.
  exact IH.
Qed.

(** Of the properties of the [http] template only the cookies can carry a
    name twice. *)
Lemma http_fields_names h cookies :
  repeated_name (V8Object (http_fields h cookies))
  = repeated_name (V8Object cookies).
Proof.
  unfold http_fields. cbn -[repeated_name].
  change (repeated_name (V8Object cookies) || false
          = repeated_name (V8Object cookies)).
  apply orb_false_r.
Qed.

Lemma add_cookies_no_fault items :
  forall cookies p, add_cookies eng utils items cookies <> Fault p.
Proof.
  induction items as [|item rest IH]; intros cookies p; [discriminate|].
  rewrite add_cookies_cons.
  destruct (template_set eng _ _ cookies); [apply IH|discriminate].
Qed.

Lemma push_values_no_fault v :
  forall sliceObject p, push_values eng utils v sliceObject <> Fault p.
Proof.
  induction v as [|value rest IH]; intros sliceObject p; simpl;
    [discriminate|].
  destruct (NewValue eng (GoString value)); [apply IH|discriminate].
Qed.

Lemma add_headers_no_fault entries :
  forall headers p, add_headers eng utils entries headers <> Fault p.
Proof.
  induction entries as [|[k v] rest IH]; intros headers p; simpl;
    [discriminate|].
  destruct (RunScript eng slice_source "slice.js") as [sliceV8|];
    [|discriminate].
  destruct (AsObject sliceV8) as [sliceObject|]; [|discriminate].
  destruct (push_values eng utils v sliceObject) as [filled| |q] eqn:Hpush;
    [|discriminate|].
  - destruct (object_set eng k filled headers); [apply IH|discriminate].
  - exfalso. exact (push_values_no_fault _ _ _ Hpush).
Qed.

Lemma set_all_no_fault fields :
  forall tmpl p, set_all eng utils fields tmpl <> Fault p.
Proof.
  induction fields as [|[key value] rest IH]; intros tmpl p; simpl;
    [discriminate|].
  destruct (template_set eng key value tmpl); [apply IH|discriminate].
Qed.

(** Seven distinct names on an empty template: the template is the list
    of the fields. *)
Lemma set_all_http_fields h cookies httpObj :
  set_all eng utils (http_fields h cookies) [] = Ok httpObj ->
  httpObj = http_fields h cookies.
Proof.
  unfold http_fields. simpl. unfold template_set.
  repeat match goal with
  | |- context [TemplateSet ?e ?k ?v] =>
      destruct (TemplateSet e k v); [discriminate|]; simpl
  end.
  intros [= <-]. reflexivity.
Qed.

Lemma proxy_set_all_fields tmpl :
  proxy_set_all eng utils proxy_fields [] = Ok tmpl -> tmpl = proxy_fields.
Proof.
  unfold proxy_fields. simpl. unfold template_set.
  repeat match goal with
  | |- context [TemplateSet ?e ?k ?v] =>
      destruct (TemplateSet e k v); [discriminate|]; simpl
  end.
  intros [= <-]. reflexivity.
Qed.

Lemma proxy_set_all_result fields :
  forall tmpl,
  match proxy_set_all eng utils fields tmpl with
  | Ok _ => True
  | Err e => e = V8ObjectWritingError utils
  | Fault _ => False
  end.
Proof.
  induction fields as [|[key value] rest IH]; intros tmpl; simpl; [exact I|].
  destruct (template_set eng key value tmpl); [apply IH|reflexivity].
Qed.

(** What the HTTP case is made of when it succeeds. *)
Lemma http_case_parts h entries obj obj' :
  http_case eng utils h entries obj = Ok obj' ->
  exists headers,
    distinct (map Name (Cookies h)) = true
    /\ add_headers eng utils entries [] = Ok headers
    /\ obj' = obj_set "http"
               (V8Object
                  (obj_set "Headers" (V8Object headers)
                     (http_fields h (map (cookie_entry eng) (Cookies h)))))
               obj.
Proof.
  unfold http_case, object_set.
  destruct (add_cookies eng utils (Cookies h) []) as [cookies| |] eqn:Hcookies;
    try discriminate.
  apply add_cookies_entries in Hcookies. simpl in Hcookies. subst cookies.
  destruct (new_instance eng []) as [headers0| |] eqn:Hempty;
    try discriminate.
  apply new_instance_ok in Hempty as [-> _].
  destruct (add_headers eng utils entries []) as [headers| |];
    try discriminate.
  destruct (set_all eng utils _ []) as [httpObj| |] eqn:Hset;
    try discriminate.
  apply set_all_http_fields in Hset. subst httpObj.
  destruct (new_instance eng _) as [http| |] eqn:Hinst; try discriminate.
  apply new_instance_ok in Hinst as [-> Hnames].
  rewrite http_fields_names, cookies_names in Hnames.
  apply negb_false_iff in Hnames.
  destruct (ObjectSet eng "Headers" _); [discriminate|].
  destruct (ObjectSet eng "http" _); [discriminate|].
  intros [= <-]. exists headers. repeat split. exact Hnames.
Qed.

(** The HTTP case stops the process only at the instantiation of the
    [http] template, and only for cookies that share a name. *)
Lemma http_case_fault h entries obj p :
  http_case eng utils h entries obj = Fault p ->
  p = EngineAbort /\ distinct (map Name (Cookies h)) = false.
Proof.
  unfold http_case, object_set.
  destruct (add_cookies eng utils (Cookies h) []) as [cookies| |q] eqn:Hc;
    [|discriminate|exfalso; exact (add_cookies_no_fault _ _ _ Hc)].
  apply add_cookies_entries in Hc. simpl in Hc. subst cookies.
  unfold new_instance at 1. cbn [repeated_name distinct map negb orb existsb].
  destruct (NewInstance eng []); [discriminate|].
  destruct (add_headers eng utils entries []) as [headers| |q] eqn:Hh;
    [|discriminate|exfalso; exact (add_headers_no_fault _ _ _ Hh)].
  destruct (set_all eng utils _ []) as [httpObj| |q] eqn:Hs;
    [|discriminate|exfalso; exact (set_all_no_fault _ _ _ Hs)].
  apply set_all_http_fields in Hs. subst httpObj.
  unfold new_instance. rewrite http_fields_names, cookies_names.
  destruct (distinct (map Name (Cookies h))); simpl.
  - destruct (NewInstance eng _); [discriminate|].
    destruct (ObjectSet eng "Headers" _); [discriminate|].
    destruct (ObjectSet eng "http" _); discriminate.
  - intros [= <-]. split; reflexivity.
Qed.

(** The construction, from the switch on. *)
Lemma request_object_switch rrpcrequest :
  v8makeSharedFunctionObject eng utils IsHttpRequest rrpcrequest =
    match TemplateSet eng "Resolve"
            (V8HostFunction resolveFunctionCallbackV8) with
    | Some _ => Err (V8ObjectWritingError utils)
    | None =>
        match TemplateSet eng "Reject"
                (V8HostFunction rejectFunctionCallbackV8) with
        | Some _ => Err (V8ObjectWritingError utils)
        | None =>
            match NewInstance eng base_object with
            | Some _ => Err (V8ObjectWritingError utils)
            | None =>
                match connection_switch eng utils IsHttpRequest rrpcrequest
                        base_object with
                | Err e => Err e
                | Fault p => Fault p
                | Ok (name, obj1) =>
                    match NewValue eng (GoString name) with
                    | inr err => Err (MakeV8Error utils origin err)
                    | inl val =>
                        match ObjectSet eng "CallMethode" val with
                        | Some err => Err (MakeV8Error utils origin err)
                        | None => Ok (V8Object (obj_set "CallMethode" val obj1))
                        end
                    end
                end
            end
        end
    end.
Proof.
  unfold v8makeSharedFunctionObject, template_set, object_set.
  destruct (TemplateSet eng "Resolve" _); [reflexivity|].
  destruct (TemplateSet eng "Reject" _); [reflexivity|].
  unfold new_instance. cbn [app repeated_name distinct map fst snd existsb
    negb orb andb String.eqb Ascii.eqb Bool.eqb].
  change ([("Resolve", V8HostFunction resolveFunctionCallbackV8);
           ("Reject", V8HostFunction rejectFunctionCallbackV8)])
    with base_object.
  destruct (NewInstance eng base_object); [reflexivity|].
  destruct (connection_switch eng utils IsHttpRequest rrpcrequest base_object)
    as [[name obj1]| |]; try reflexivity.
  destruct (NewValue eng (GoString name)); [|reflexivity].
  destruct (ObjectSet eng "CallMethode" _); reflexivity.
Qed.

(** What the whole construction is made of when it succeeds. *)
Lemma request_object_parts rrpcrequest obj :
  v8makeSharedFunctionObject eng utils IsHttpRequest rrpcrequest = Ok obj ->
  exists name obj1 val,
    connection_switch eng utils IsHttpRequest rrpcrequest base_object
    = Ok (name, obj1)
    /\ NewValue eng (GoString name) = inl val
    /\ obj = V8Object (obj_set "CallMethode" val obj1).
Proof.
  rewrite request_object_switch.
  destruct (TemplateSet eng "Resolve" _); [discriminate|].
  destruct (TemplateSet eng "Reject" _); [discriminate|].
  destruct (NewInstance eng base_object); [discriminate|].
  destruct (connection_switch eng utils IsHttpRequest rrpcrequest base_object)
    as [[name obj1]| |] eqn:Hswitch; try discriminate.
  destruct (NewValue eng (GoString name)) as [val|] eqn:Hval; [|discriminate].
  destruct (ObjectSet eng "CallMethode" val); [discriminate|].
  intros [= <-]. exists name, obj1, val. repeat split; assumption.
Qed.

(** The construction stops the process only inside the switch. *)
Lemma request_object_fault rrpcrequest p :
  v8makeSharedFunctionObject eng utils IsHttpRequest rrpcrequest = Fault p ->
  connection_switch eng utils IsHttpRequest rrpcrequest base_object = Fault p.
Proof.
  rewrite request_object_switch.
  destruct (TemplateSet eng "Resolve" _); [discriminate|].
  destruct (TemplateSet eng "Reject" _); [discriminate|].
  destruct (NewInstance eng base_object); [discriminate|].
  destruct (connection_switch eng utils IsHttpRequest rrpcrequest base_object)
    as [[name obj1]| |q]; try discriminate.
  - destruct (NewValue eng (GoString name)); [|discriminate].
    destruct (ObjectSet eng "CallMethode" _); discriminate.
  - intros [= ->]. reflexivity.
Qed.

(** A header loop succeeds exactly when every header passes, whatever is
    in the object it fills. *)
Lemma add_headers_ok_iff entries :
  forall headers,
  (exists headers', add_headers eng utils entries headers = Ok headers')
  <-> Forall (header_passes eng utils) entries.
Proof.
  induction entries as [|[k v] rest IH]; intros headers; simpl.
  - split; [constructor|]. intros _. exists headers. reflexivity.
  - split.
    + intros [headers' H].
      destruct (RunScript eng slice_source "slice.js") as [sliceV8|] eqn:Hrun;
        [|discriminate].
      unfold AsObject in H.
      destruct (IsObject sliceV8) eqn:Hobj; [|discriminate].
      destruct (push_values eng utils v sliceV8) as [filled| |] eqn:Hpush;
        try discriminate.
      unfold object_set in H.
      destruct (ObjectSet eng k filled) eqn:Hset; [discriminate|].
      constructor.
      * exists sliceV8, filled. repeat split; assumption.
      * apply (IH (obj_set k filled headers)). exists headers'. exact H.
    + intros H. apply Forall_cons in H as [[sliceV8 [filled Hp]] Hrest].
      simpl in Hp. destruct Hp as [Hrun [Hobj [Hpush Hset]]].
      rewrite Hrun. unfold AsObject. rewrite Hobj, Hpush.
      unfold object_set. rewrite Hset. apply IH. exact Hrest.
Qed.

End WithEngine.
End RequestObjectMoreFacts.

Module RequestObjectMore.
Import RequestObject RequestObjectFacts RequestObjectMoreFacts Notions.

(** A request object that is built always carries [Resolve] and [Reject]
    bound to the resolver and the rejecter of the context, and
    [CallMethode] holding the engine value of "http", "ws" or "ipc"
    according to the type of the request; only an HTTP request gets an
    [http] property, and for any other request type nothing is built. *)
Theorem request_object_frame eng utils IsHttpRequest rrpcrequest obj :
  v8makeSharedFunctionObject eng utils IsHttpRequest rrpcrequest = Ok obj ->
  exists props name val,
    obj = V8Object props
    /\ match RequestType rrpcrequest with
       | HTTP_REQUEST =>
           name = "http"
           /\ exists http, obj_get "http" props = Some (V8Object http)
       | WEBSOCKET_REQUEST => name = "ws" /\ obj_get "http" props = None
       | IPC_REQUEST => name = "ipc" /\ obj_get "http" props = None
       | OTHER_REQUEST _ => False
       end
    /\ NewValue eng (GoString name) = inl val
    /\ obj_get "CallMethode" props = Some val
    /\ obj_get "Resolve" props
       = Some (V8HostFunction resolveFunctionCallbackV8)
    /\ obj_get "Reject" props
       = Some (V8HostFunction rejectFunctionCallbackV8).
Proof.
  intros H. apply request_object_parts in H
    as [name [obj1 [val [Hswitch [Hval ->]]]]].
  exists (obj_set "CallMethode" val obj1), name, val.
  split; [reflexivity|]. unfold connection_switch in Hswitch.
  destruct (RequestType rrpcrequest).
  - destruct (negb (IsHttpRequest rrpcrequest)); [discriminate|].
    destruct (HttpRequestOf rrpcrequest) as [h|]; [|discriminate].
    destruct (http_case eng utils h _ _) as [obj'| |] eqn:Hcase;
      try discriminate.
    injection Hswitch as <- <-.
    apply http_case_parts in Hcase as [headers [_ [_ ->]]].
    repeat split; try assumption; try reflexivity.
    eexists. reflexivity.
  - injection Hswitch as <- <-. repeat split; try assumption; reflexivity.
  - injection Hswitch as <- <-. repeat split; try assumption; reflexivity.
  - discriminate.
Qed.

Lemma request_object_frame_witness :
  exists props name val,
    V8Object
      [("Resolve", V8HostFunction resolveFunctionCallbackV8);
       ("Reject", V8HostFunction rejectFunctionCallbackV8);
       ("CallMethode", V8String "ipc")] = V8Object props
    /\ (name = "ipc" /\ obj_get "http" props = None)
    /\ NewValue Sample.engine (GoString name) = inl val
    /\ obj_get "CallMethode" props = Some val
    /\ obj_get "Resolve" props
       = Some (V8HostFunction resolveFunctionCallbackV8)
    /\ obj_get "Reject" props
       = Some (V8HostFunction rejectFunctionCallbackV8).
Proof.
  apply (request_object_frame Sample.engine Sample.utils Sample.isHttpRequest
           (Sample.ipc_request [])).
  reflexivity.
Defined.

(** The [http] object of a built request object presents the transport
    metadata of the request: the four strings unchanged, the content length
    as the number [float64] makes of it (the length itself up to 2^53), the
    liveness probe as a function, and objects for the cookies and the
    headers. *)
Theorem http_metadata eng utils IsHttpRequest rrpcrequest h obj :
  RequestType rrpcrequest = HTTP_REQUEST ->
  HttpRequestOf rrpcrequest = Some h ->
  v8makeSharedFunctionObject eng utils IsHttpRequest rrpcrequest = Ok obj ->
  exists props http cookies headers,
    obj = V8Object props
    /\ obj_get "http" props = Some (V8Object http)
    /\ obj_get "IsConnected" http = Some (V8HostFunction isConnected)
    /\ obj_get "ContentLength" http
       = Some (V8Number (float64_of_int (ContentLength h)))
    /\ ((Z.abs (ContentLength h) <= 9007199254740992)%Z ->
        obj_get "ContentLength" http = Some (V8Number (ContentLength h)))
    /\ obj_get "Host" http = Some (V8String (Host h))
    /\ obj_get "Proto" http = Some (V8String (Proto h))
    /\ obj_get "RemoteAddr" http = Some (V8String (RemoteAddr h))
    /\ obj_get "RequestURI" http = Some (V8String (RequestURI h))
    /\ obj_get "Cookies" http = Some (V8Object cookies)
    /\ obj_get "Headers" http = Some (V8Object headers).
Proof.
  intros Htype Hhttp H. apply request_object_parts in H
    as [name [obj1 [val [Hswitch [_ ->]]]]].
  unfold connection_switch in Hswitch. rewrite Htype, Hhttp in Hswitch.
  destruct (negb (IsHttpRequest rrpcrequest)); [discriminate|].
  destruct (http_case eng utils h _ _) as [obj'| |] eqn:Hcase;
    try discriminate.
  injection Hswitch as <- <-.
  apply http_case_parts in Hcase as [headers [_ [_ ->]]].
  do 4 eexists. repeat split.
  intros Hsmall.
  transitivity (Some (V8Number (float64_of_int (ContentLength h))));
    [reflexivity|].
  rewrite (float64_of_int_exact _ Hsmall). reflexivity.
Qed.

Lemma http_metadata_witness :
  exists props http cookies headers,
    RequestObject.v8makeSharedFunctionObject Sample.engine Sample.utils
      Sample.isHttpRequest Cases.http_request = Ok (V8Object props)
    /\ obj_get "http" props = Some (V8Object http)
    /\ obj_get "IsConnected" http = Some (V8HostFunction isConnected)
    /\ obj_get "ContentLength" http = Some (V8Number 12)
    /\ obj_get "Host" http = Some (V8String "example.org")
    /\ obj_get "Proto" http = Some (V8String "HTTP/2.0")
    /\ obj_get "RemoteAddr" http = Some (V8String "10.0.0.7:51000")
    /\ obj_get "RequestURI" http = Some (V8String "/call")
    /\ obj_get "Cookies" http = Some (V8Object cookies)
    /\ obj_get "Headers" http = Some (V8Object headers).
Proof.
  destruct (http_metadata Sample.engine Sample.utils Sample.isHttpRequest
              Cases.http_request Cases.http_part
              (V8Object
                 [("Resolve", V8HostFunction resolveFunctionCallbackV8);
                  ("Reject", V8HostFunction rejectFunctionCallbackV8);
                  ("http",
                   V8Object
                     [("IsConnected", V8HostFunction isConnected);
                      ("ContentLength", V8Number 12);
                      ("Host", V8String "example.org");
                      ("Proto", V8String "HTTP/2.0");
                      ("RemoteAddr", V8String "10.0.0.7:51000");
                      ("RequestURI", V8String "/call");
                      ("Cookies",
                       V8Object
                         [("s",
                           V8Object
                             [("Value", V8String "1");
                              ("Domain", V8String "d");
                              ("Path", V8String "/");
                              ("Expires", V8String "e")]);
                          ("t",
                           V8Object
                             [("Value", V8String "2");
                              ("Domain", V8String "d");
                              ("Path", V8String "/x");
                              ("Expires", V8String "f")])]);
                      ("Headers",
                       V8Object [("Accept", V8Array [V8String "*/*"])])]);
                  ("CallMethode", V8String "http")]))
    as [props [http [cookies [headers
         [Hobj [H1 [H2 [_ [H3 [H4 [H5 [H6 [H7 [H8 H9]]]]]]]]]]]]]].
  - reflexivity.
  - reflexivity.
  - vm_compute. reflexivity.
  - exists props, http, cookies, headers. rewrite <- Hobj.
    split; [vm_compute; reflexivity|].
    repeat split; try assumption.
    apply H3. simpl. lia.
Defined.

(** Above 2^53 the content length is rounded: 2^53 + 1 is presented as
    2^53. *)
Example content_length_is_rounded :
  float64_of_int 9007199254740993 = 9007199254740992%Z.
Proof. vm_compute. reflexivity. Qed.





(** With the engine of the examples the clash does end the process. *)
Example clashing_cookies_abort :
  RequestObject.v8makeSharedFunctionObject Sample.engine Sample.utils
    Sample.isHttpRequest Cases.clashing_request = Fault EngineAbort.
Proof. vm_compute. reflexivity. Qed.

(** The construction of the request object stops the process in two cases
    only, both for a request of type HTTP that [IsHttpRequest] lets pass:
    the request has no HTTP part, which is a nil dereference, or two of its
    cookies share a name, which is a fatal error of the engine.  Every
    other failure is a returned error. *)
Theorem request_object_faults eng utils IsHttpRequest rrpcrequest p :
  v8makeSharedFunctionObject eng utils IsHttpRequest rrpcrequest = Fault p ->
  RequestType rrpcrequest = HTTP_REQUEST
  /\ IsHttpRequest rrpcrequest = true
  /\ ((p = NilDereference /\ HttpRequestOf rrpcrequest = None)
      \/ (p = EngineAbort
          /\ exists h,
               HttpRequestOf rrpcrequest = Some h
               /\ ~ NoDup (map Name (Cookies h)))).
Proof.
  intros H. apply request_object_fault in H.
  unfold connection_switch in H.
  destruct (RequestType rrpcrequest); try discriminate.
  split; [reflexivity|].
  destruct (IsHttpRequest rrpcrequest); [|discriminate].
  split; [reflexivity|]. simpl in H.
  destruct (HttpRequestOf rrpcrequest) as [h|].
  - right. destruct (http_case eng utils h _ _) as [obj'| |q] eqn:Hcase;
      try discriminate.
    injection H as <-. apply http_case_fault in Hcase as [-> Hclash].
    split; [reflexivity|]. exists h. split; [reflexivity|].
    intros Hnodup. apply distinct_NoDup in Hnodup. congruence.
  - left. injection H as <-. split; reflexivity.
Qed.

Lemma request_object_faults_witness :
  RequestType Cases.nil_http_request = HTTP_REQUEST
  /\ (fun _ : RpcRequest => true) Cases.nil_http_request = true
  /\ ((NilDereference = NilDereference
       /\ HttpRequestOf Cases.nil_http_request = None)
      \/ (NilDereference = EngineAbort
          /\ exists h,
               HttpRequestOf Cases.nil_http_request = Some h
               /\ ~ NoDup (map Name (Cookies h)))).
Proof.
  apply (request_object_faults Sample.engine Sample.utils
           (fun _ : RpcRequest => true) Cases.nil_http_request
           NilDereference).
  vm_compute. reflexivity.
Defined.

(** The order in which the header map is visited decides neither whether
    the header loop succeeds nor what a name leads to afterwards. *)
Theorem header_order_is_immaterial eng utils entries entries' headers :
  RequestObject.literal_is_empty_array eng ->
  NoDup entries.*1 ->
  entries ≡ₚ entries' ->
  add_headers eng utils entries [] = Ok headers ->
  exists headers',
    add_headers eng utils entries' [] = Ok headers'
    /\ forall k, obj_get k headers' = obj_get k headers.
Proof.
  intros Hlit Hnodup Hperm Hok.
  assert (Hnodup' : NoDup entries'.*1).
  { rewrite <- Hperm. exact Hnodup. }
  destruct (proj2 (add_headers_ok_iff eng utils entries' [])) as [headers' Hok'].
  { rewrite <- Hperm. apply (add_headers_ok_iff eng utils entries []).
    exists headers. exact Hok. }
  exists headers'. split; [exact Hok'|]. intros k.
  destruct (add_headers_entries eng utils entries Hlit Hnodup _ _ Hok)
    as [Hin Hout].
  destruct (add_headers_entries eng utils entries' Hlit Hnodup' _ _ Hok')
    as [Hin' Hout'].
  destruct (decide (k ∈ entries.*1)) as [Hk|Hk].
  - apply list_elem_of_fmap in Hk as [[k' v] [-> Hmem]]. simpl.
    destruct (Hin _ _ Hmem) as [elems [-> Hheld]].
    rewrite Hperm in Hmem.
    destruct (Hin' _ _ Hmem) as [elems' [-> Hheld']].
    rewrite (holds_functional eng _ _ _ Hheld Hheld'). reflexivity.
  - rewrite (Hout k Hk). apply Hout'. rewrite <- Hperm. exact Hk.
Qed.

Lemma header_order_is_immaterial_witness :
  exists headers',
    add_headers Sample.engine Sample.utils
      [("B", ["2"]); ("A", ["1"; "3"])] [] = Ok headers'
    /\ forall k,
         obj_get k headers'
         = obj_get k [("A", V8Array [V8String "1"; V8String "3"]);
                      ("B", V8Array [V8String "2"])].
Proof.
  apply (header_order_is_immaterial Sample.engine Sample.utils
           [("A", ["1"; "3"]); ("B", ["2"])]
           [("B", ["2"]); ("A", ["1"; "3"])]).
  - intros sliceV8 H. vm_compute in H. injection H as <-. reflexivity.
  - apply (bool_decide_unpack _). vm_compute. exact I.
  - apply perm_swap.
  - reflexivity.
Defined.

(** The proxy shield is either built with exactly ten members, each name
    bound to its callback, [resolve] and [reject] to the callbacks that the
    request object has as [Resolve] and [Reject], or refused with one of
    two errors; its construction never stops the process. *)
Theorem proxy_shield_members eng utils :
  match v8makeProxyForRPCCall eng utils with
  | Ok obj =>
      exists props,
        obj = V8Object props
        /\ props =
             [ ("proxyShieldConsoleLog",
                V8HostFunction proxyShield_ConsoleLog);
               ("proxyShieldErrorLog", V8HostFunction proxyShield_ErrorLog);
               ("clearInterval", V8HostFunction proxyShield_ClearInterval);
               ("clearTimeout", V8HostFunction proxyShield_ClearTimeout);
               ("setInterval", V8HostFunction proxyShield_SetInterval);
               ("setTimeout", V8HostFunction proxyShield_SetTimeout);
               ("resolve", V8HostFunction resolveFunctionCallbackV8);
               ("reject", V8HostFunction rejectFunctionCallbackV8);
               ("newPromise", V8HostFunction proxyShield_NewPromise);
               ("wait", V8HostFunction testWait) ]
        /\ obj_get "resolve" props = obj_get "Resolve" base_object
        /\ obj_get "reject" props = obj_get "Reject" base_object
  | Err e =>
      e = V8ObjectWritingError utils \/ e = V8ObjectInstanceCreatingError utils
  | Fault _ => False
  end.
Proof.
  unfold v8makeProxyForRPCCall.
  pose proof (proxy_set_all_result eng utils proxy_fields []) as Hres.
  destruct (proxy_set_all eng utils proxy_fields []) as [tmpl|e|p] eqn:Hset.
  - apply proxy_set_all_fields in Hset. subst tmpl.
    unfold new_instance.
    replace (repeated_name (V8Object proxy_fields)) with false
      by (vm_compute; reflexivity).
    destruct (NewInstance eng proxy_fields); [right; reflexivity|].
    eexists. repeat split.
  - left. exact Hres.
  - exact Hres.
Qed.

End RequestObjectMore.

(** ** The task bodies and the loop, continued *)

Module PipelineMoreFacts.
Import Pipeline Notions.

(** One turn of a loop that has not stopped and has a task waiting. *)
Lemma step_head eng utils IsHttpRequest kernel source o req state
    t waiting seen n :
  Loop.step eng utils IsHttpRequest kernel source o req state
    {| Loop.queue := t :: waiting; Loop.log := seen; Loop.crashed := None;
       Loop.turn := n |}
  = let out := body eng utils IsHttpRequest kernel source o req (state n) t in
    {| Loop.queue := waiting ++ Loop.enqueued kernel (events out);
       Loop.log := seen ++ events out;
       Loop.crashed := match completion out with
                       | Panicked p => Some p
                       | Returned => None
                       end;
       Loop.turn := S n |}.
Proof. reflexivity. Qed.

Lemma run_add eng utils IsHttpRequest kernel source o req state a b :
  forall m,
  Loop.run eng utils IsHttpRequest kernel source o req state (a + b) m
  = Loop.run eng utils IsHttpRequest kernel source o req state b
      (Loop.run eng utils IsHttpRequest kernel source o req state a m).
Proof. induction a as [|a IH]; intros m; simpl; [reflexivity|apply IH]. Qed.

(** As long as the promise is pending and the kernel takes the poll back,
    every turn adds one goroutine and leaves the poll waiting. *)
Lemma poll_while_pending eng utils IsHttpRequest kernel source o req state
    prom :
  AddToEventLoop kernel (CheckTask prom) = None ->
  forall n seen from,
  (forall i, (i < n)%nat -> state (from + i)%nat prom = Pending) ->
  Loop.run eng utils IsHttpRequest kernel source o req state n
    (polling prom seen from)
  = polling prom (seen ++ repeat (Go 1000000 (CheckTask prom)) n)
      (from + n).
Proof.
  intros Hkernel. induction n as [|n IH]; intros seen from Hpending.
  - simpl. rewrite app_nil_r, Nat.add_0_r. reflexivity.
  - simpl Loop.run. unfold polling at 1. rewrite step_head.
    cbn [body]. unfold check_body, callInKernelEventLoopCheck.
    specialize (Hpending 0%nat ltac:(lia)) as Hnow.
    rewrite Nat.add_0_r in Hnow. rewrite Hnow.
    cbn [events completion Loop.enqueued app]. rewrite Hkernel.
    change {| Loop.queue := [CheckTask prom];
              Loop.log := seen ++ [Go (1 * Millisecond) (CheckTask prom)];
              Loop.crashed := None; Loop.turn := S from |}
      with (polling prom (seen ++ [Go 1000000 (CheckTask prom)]) (S from)).
    rewrite IH.
    + rewrite <- app_assoc. simpl.
      replace (S (from + n))%nat with (from + S n)%nat by lia. reflexivity.
    + intros i Hi. replace (S from + i)%nat with (from + S i)%nat by lia.
      apply Hpending. lia.
Qed.

End PipelineMoreFacts.

Module PipelineMore.
Import Pipeline PipelineFacts PipelineMoreFacts Notions.

Ltac open_bodies :=
  unfold body, init_body, proxy_object_prepare_body, call_body,
    promise_operation_body, finall_body, check_body, silent_return,
    functionCallInEventloopProxyObjectPrepare, functionCallInEventloop,
    functionCallInEventloopPromiseOperation, functionCallInEventloopFinall,
    callInKernelEventLoopCheck, add_to_event_loop.

Ltac split_cases :=
  repeat match goal with
  | |- context [AddToEventLoop ?k ?t] =>
      destruct (AddToEventLoop k t) as [[?|?]|]
  | |- context [match ?x with Pending => _ | _ => _ end] => destruct x
  | |- context [match ?x with _ => _ end] =>
      lazymatch x with
      | context [events] => fail
      | context [completion] => fail
      | _ => destruct x
      end
  end.

(** No task body of the pipeline ever calls the error setter, a terminator
    of the request context or a JavaScript throw: whatever goes wrong
    inside a body, nothing about it reaches the task's error setter or the
    response sink from there. *)
Theorem bodies_never_report
    eng utils IsHttpRequest kernel source o req states t :
  existsb Loop.is_set_error
    (events (body eng utils IsHttpRequest kernel source o req states t))
  = false
  /\ Context.signals_of
       (events (body eng utils IsHttpRequest kernel source o req states t))
     = []
  /\ existsb (fun ev => match ev with Throw _ => true | _ => false end)
       (events (body eng utils IsHttpRequest kernel source o req states t))
     = false.
Proof.
  destruct t; open_bodies; split_cases; repeat split.
Qed.

(** Every body calls the completion setter at most once, as the last thing
    it does, and never when it panics.  The four chained bodies call it
    exactly when the kernel accepted the task they submit; the body of the
    last task calls it always, the poll never. *)
Theorem set_result_discipline
    eng utils IsHttpRequest kernel source o req states t :
  let out := body eng utils IsHttpRequest kernel source o req states t in
  (set_result_count (events out) <= 1)%nat
  /\ match completion out with
     | Panicked _ => set_result_count (events out) = 0%nat
     | Returned => True
     end
  /\ (if existsb Loop.is_set_result (events out)
      then last (events out) = Some SetResult
      else True)
  /\ match t with
     | FinallTask _ => existsb Loop.is_set_result (events out) = true
     | CheckTask _ => existsb Loop.is_set_result (events out) = false
     | _ =>
         existsb Loop.is_set_result (events out)
         = existsb is_submitted (events out)
     end.
Proof.
  destruct t; open_bodies; split_cases; simpl; repeat split;
    try (unfold set_result_count; simpl; lia).
Qed.

(** When every step succeeds and the kernel accepts every task, the first
    four turns of the loop run the four tasks in order: each body submits
    the next and signals completion, the wrapper is called exactly once, in
    the third turn, with the user function, the proxy shield, the request
    object and the converted values in this order, and the callbacks are
    attached in the fourth turn, which leaves the last task waiting. *)
Theorem successful_call_runs_in_order
    eng utils IsHttpRequest kernel source o req state
    vals requestObj wrapper proxyObject handle :
  (forall t, AddToEventLoop kernel t = None) ->
  Marshal.convertRequestParametersToV8Parameters eng (signature_Params o)
    (Parms req) = Ok vals ->
  RequestObject.v8makeSharedFunctionObject eng utils IsHttpRequest req
    = Ok requestObj ->
  RunScript eng source "rpc_function_call_proxy_shield.js" = inl wrapper ->
  IsFunction wrapper = true ->
  RequestObject.v8makeProxyForRPCCall eng utils = Ok proxyObject ->
  Call eng wrapper (v8Function o :: proxyObject :: requestObj :: vals)
    = inl (V8Promise handle) ->
  Loop.run eng utils IsHttpRequest kernel source o req state 4 Loop.start
  = {| Loop.queue :=
         [FinallTask (CatchHandle eng (ThenHandle eng handle))];
       Loop.log :=
         [ Submitted (ProxyObjectPrepareTask requestObj vals);
           SetResult;
           Submitted
             (CallTask wrapper
                (v8Function o :: proxyObject :: requestObj :: vals));
           SetResult;
           Called wrapper (v8Function o :: proxyObject :: requestObj :: vals);
           Submitted (PromiseOperationTask (V8Promise handle));
           SetResult;
           Then handle funcFinal throwProm;
           Catch (ThenHandle eng handle) throwProm;
           Submitted (FinallTask (CatchHandle eng (ThenHandle eng handle)));
           SetResult ];
       Loop.crashed := None;
       Loop.turn := 4 |}.
Proof.
  intros Hkernel Hconv Hobj Hscript Hfun Hproxy Hcall.
  unfold Loop.start. cbn [Loop.run].
  rewrite step_head. cbn [body]. unfold init_body.
  rewrite Hconv, Hobj.
  unfold functionCallInEventloopProxyObjectPrepare, add_to_event_loop.
  rewrite Hkernel. cbn [events completion Loop.enqueued app].
  rewrite step_head. cbn [body]. unfold proxy_object_prepare_body.
  rewrite Hscript. unfold AsFunction. rewrite Hfun, Hproxy.
  unfold functionCallInEventloop, add_to_event_loop.
  rewrite Hkernel. cbn [events completion Loop.enqueued app].
  rewrite step_head. cbn [body]. unfold call_body.
  rewrite Hcall.
  unfold functionCallInEventloopPromiseOperation, add_to_event_loop.
  rewrite Hkernel. cbn [events completion Loop.enqueued app].
  rewrite step_head. cbn [body]. unfold promise_operation_body.
  cbn [IsPromise negb AsPromise].
  unfold functionCallInEventloopFinall, add_to_event_loop.
  rewrite Hkernel. reflexivity.
Qed.

Lemma successful_call_runs_in_order_witness :
  Loop.queue
    (Loop.run Sample.engine Sample.utils Sample.isHttpRequest Sample.kernel
       Sample.proxy_source Sample.add
       (Sample.ipc_request [Sample.number 2; Sample.number 3])
       (Sample.always Pending) 4 Loop.start)
  = [FinallTask 2].
Proof.
  rewrite (successful_call_runs_in_order Sample.engine Sample.utils
             Sample.isHttpRequest Sample.kernel Sample.proxy_source Sample.add
             (Sample.ipc_request [Sample.number 2; Sample.number 3])
             (Sample.always Pending)
             [V8Number 2; V8Number 3]
             (V8Object
                [("Resolve", V8HostFunction resolveFunctionCallbackV8);
                 ("Reject", V8HostFunction rejectFunctionCallbackV8);
                 ("CallMethode", V8String "ipc")])
             (V8ScriptFunction Sample.proxy_source)
             (V8Object RequestObject.proxy_fields) 0).
  - reflexivity.
  - intros t. reflexivity.
  - reflexivity.
  - reflexivity.
  - reflexivity.
  - reflexivity.
  - reflexivity.
  - reflexivity.
Defined.

(** When the first task succeeds but the second cannot get its wrapper
    (the script fails, or does not yield a function, or the proxy shield is
    refused), the call ends there without a trace: the first task has
    signalled completion, the second signals nothing, the wrapper is never
    called and the loop is empty from the second turn on. *)
Theorem wrapper_failure_is_silent
    eng utils IsHttpRequest kernel source o req state vals requestObj :
  AddToEventLoop kernel (ProxyObjectPrepareTask requestObj vals) = None ->
  Marshal.convertRequestParametersToV8Parameters eng (signature_Params o)
    (Parms req) = Ok vals ->
  RequestObject.v8makeSharedFunctionObject eng utils IsHttpRequest req
    = Ok requestObj ->
  (exists err,
     RunScript eng source "rpc_function_call_proxy_shield.js" = inr err)
  \/ (exists value,
     RunScript eng source "rpc_function_call_proxy_shield.js" = inl value
     /\ IsFunction value = false)
  \/ (exists wrapper err,
     RunScript eng source "rpc_function_call_proxy_shield.js" = inl wrapper
     /\ IsFunction wrapper = true
     /\ RequestObject.v8makeProxyForRPCCall eng utils = Err err) ->
  forall turns,
  Loop.run eng utils IsHttpRequest kernel source o req state (2 + turns)
    Loop.start
  = {| Loop.queue := [];
       Loop.log :=
         [Submitted (ProxyObjectPrepareTask requestObj vals); SetResult];
       Loop.crashed := None;
       Loop.turn := 2 |}.
Proof.
  intros Hkernel Hconv Hobj Hfail turns.
  rewrite run_add. unfold Loop.start. cbn [Loop.run].
  rewrite step_head. cbn [body]. unfold init_body.
  rewrite Hconv, Hobj.
  unfold functionCallInEventloopProxyObjectPrepare, add_to_event_loop.
  rewrite Hkernel. cbn [events completion Loop.enqueued app].
  rewrite step_head. cbn [body]. unfold proxy_object_prepare_body.
  assert (Hbody :
    match RunScript eng source "rpc_function_call_proxy_shield.js" with
    | inr _ => silent_return
    | inl procxyFunction =>
        match AsFunction procxyFunction with
        | inr _ => silent_return
        | inl proxFunction =>
            match RequestObject.v8makeProxyForRPCCall eng utils with
            | Err _ => silent_return
            | Fault p => {| events := []; completion := Panicked p |}
            | Ok proxyObject =>
                match
                  functionCallInEventloop kernel proxFunction
                    ([v8Function o; proxyObject] ++ requestObj :: vals)
                with
                | (evs, Some _) =>
                    {| events := evs; completion := Returned |}
                | (evs, None) =>
                    {| events := evs ++ [SetResult]; completion := Returned |}
                end
            end
        end
    end = silent_return).
  { destruct Hfail as [[err ->]|[[value [-> Hno]]|[wrapper [err [-> [Hyes ->]]]]]].
    - reflexivity.
    - unfold AsFunction. rewrite Hno. reflexivity.
    - unfold AsFunction. rewrite Hyes. reflexivity. }
  rewrite Hbody. cbn [events completion silent_return Loop.enqueued app].
  apply run_idle. reflexivity.
Qed.

Lemma wrapper_failure_is_silent_witness :
  Loop.run Cases.broken_engine Sample.utils Sample.isHttpRequest
    Sample.kernel Sample.proxy_source Sample.add
    (Sample.ipc_request [Sample.number 2; Sample.number 3])
    (Sample.always Pending) (2 + 5) Loop.start
  = {| Loop.queue := [];
       Loop.log :=
         [Submitted
            (ProxyObjectPrepareTask
               (V8Object
                  [("Resolve", V8HostFunction resolveFunctionCallbackV8);
                   ("Reject", V8HostFunction rejectFunctionCallbackV8);
                   ("CallMethode", V8String "ipc")])
               [V8Number 2; V8Number 3]);
          SetResult];
       Loop.crashed := None;
       Loop.turn := 2 |}.
Proof.
  apply (wrapper_failure_is_silent Cases.broken_engine Sample.utils
           Sample.isHttpRequest Sample.kernel Sample.proxy_source Sample.add
           (Sample.ipc_request [Sample.number 2; Sample.number 3])
           (Sample.always Pending)).
  - reflexivity.
  - reflexivity.
  - reflexivity.
  - left. exists (ErrorString "SyntaxError"). reflexivity.
Defined.

(** The poll of a promise that is pending for [n] turns and settled at the
    next one runs [n + 1] times and then leaves the loop empty: it starts
    [n] goroutines of 1 ms each, performs one microtask checkpoint if the
    promise was rejected, and calls neither setter. *)
Theorem poll_ends_when_settled
    eng utils IsHttpRequest kernel source o req state prom n seen from later :
  AddToEventLoop kernel (CheckTask prom) = None ->
  (forall i, (i < n)%nat -> state (from + i)%nat prom = Pending) ->
  state (from + n)%nat prom <> Pending ->
  Loop.run eng utils IsHttpRequest kernel source o req state
    (n + S later) (polling prom seen from)
  = {| Loop.queue := [];
       Loop.log :=
         seen ++ repeat (Go 1000000 (CheckTask prom)) n
         ++ match state (from + n)%nat prom with
            | Rejected => [PerformMicrotaskCheckpoint]
            | _ => []
            end;
       Loop.crashed := None;
       Loop.turn := S (from + n) |}.
Proof.
  intros Hkernel Hpending Hsettled.
  rewrite run_add, (poll_while_pending _ _ _ _ _ _ _ _ _ Hkernel _ _ _ Hpending).
  cbn [Loop.run]. unfold polling. rewrite step_head. cbn [body].
  unfold check_body, callInKernelEventLoopCheck.
  destruct (state (from + n)%nat prom); [contradiction| |];
    cbn [events completion Loop.enqueued app];
    rewrite <- ?app_assoc, ?app_nil_r; apply run_idle; reflexivity.
Qed.

Lemma poll_ends_when_settled_witness :
  Loop.run Sample.engine Sample.utils Sample.isHttpRequest Sample.kernel
    Sample.proxy_source Sample.add (Sample.ipc_request [])
    Cases.settles_after_three (3 + S 2) (polling 7 [] 0)
  = {| Loop.queue := [];
       Loop.log := [] ++ repeat (Go 1000000 (CheckTask 7)) 3 ++ [];
       Loop.crashed := None;
       Loop.turn := 4 |}.
Proof.
  apply (poll_ends_when_settled Sample.engine Sample.utils
           Sample.isHttpRequest Sample.kernel Sample.proxy_source Sample.add
           (Sample.ipc_request []) Cases.settles_after_three 7 3 [] 0 2).
  - reflexivity.
  - intros i Hi. unfold Cases.settles_after_three. simpl.
    destruct (Nat.ltb_spec i 3); [reflexivity|lia].
  - discriminate.
Defined.

(** The poll of a promise that never settles never ends: at every turn it
    is the one task waiting, and nothing but its goroutines has happened. *)
Theorem poll_of_pending_promise_goes_on
    eng utils IsHttpRequest kernel source o req state prom seen from n :
  AddToEventLoop kernel (CheckTask prom) = None ->
  (forall at_turn, state at_turn prom = Pending) ->
  Loop.run eng utils IsHttpRequest kernel source o req state n
    (polling prom seen from)
  = polling prom (seen ++ repeat (Go 1000000 (CheckTask prom)) n) (from + n).
Proof.
  intros Hkernel Hpending. apply poll_while_pending; [exact Hkernel|].
  intros i _. apply Hpending.
Qed.

Lemma poll_of_pending_promise_goes_on_witness :
  Loop.run Sample.engine Sample.utils Sample.isHttpRequest Sample.kernel
    Sample.proxy_source Sample.add (Sample.ipc_request [])
    (Sample.always Pending) 6 (polling 7 [] 0)
  = polling 7 ([] ++ repeat (Go 1000000 (CheckTask 7)) 6) (0 + 6).
Proof.
  apply (poll_of_pending_promise_goes_on Sample.engine Sample.utils
           Sample.isHttpRequest Sample.kernel Sample.proxy_source Sample.add
           (Sample.ipc_request []) (Sample.always Pending) 7 [] 0 6).
  - reflexivity.
  - intros at_turn. reflexivity.
Defined.

(** When the kernel refuses the poll's goroutine, the poll of a pending
    promise ends after that turn and nothing records the refusal. *)
Theorem refused_poll_ends
    eng utils IsHttpRequest kernel source o req state prom seen from
    err later :
  AddToEventLoop kernel (CheckTask prom) = Some err ->
  state from prom = Pending ->
  Loop.run eng utils IsHttpRequest kernel source o req state (S later)
    (polling prom seen from)
  = {| Loop.queue := [];
       Loop.log := seen ++ [Go 1000000 (CheckTask prom)];
       Loop.crashed := None;
       Loop.turn := S from |}.
Proof.
  intros Hkernel Hpending. cbn [Loop.run]. unfold polling.
  rewrite step_head. cbn [body].
  unfold check_body, callInKernelEventLoopCheck. rewrite Hpending.
  cbn [events completion Loop.enqueued app]. rewrite Hkernel.
  apply run_idle. reflexivity.
Qed.

Lemma refused_poll_ends_witness :
  Loop.run Sample.engine Sample.utils Sample.isHttpRequest
    Cases.closing_kernel Sample.proxy_source Sample.add
    (Sample.ipc_request []) (Sample.always Pending) (S 3) (polling 7 [] 0)
  = {| Loop.queue := [];
       Loop.log := [] ++ [Go 1000000 (CheckTask 7)];
       Loop.crashed := None;
       Loop.turn := 1 |}.
Proof.
  apply (refused_poll_ends Sample.engine Sample.utils Sample.isHttpRequest
           Cases.closing_kernel Sample.proxy_source Sample.add
           (Sample.ipc_request []) (Sample.always Pending) 7 [] 0
           (SpecificError "kernel is closing") 3).
  - reflexivity.
  - reflexivity.
Defined.

End PipelineMore.

(** ** Parameter marshalling: the ways to fail *)


Module MarshalFailure.
Import Marshal MarshalFacts.

(** The marshalling fails in four ways only.  Its error is the fixed
    "not same parameter", the fixed "unsuported datatype", or the wrapped
    error the engine gave for the value of one of the parameters; its only
    panic is the access one past the end of the signature, which needs more
    parameters than signature entries. *)
Theorem convert_params_failures eng parmTypes reqparms :
  match convertRequestParametersToV8Parameters eng parmTypes reqparms with
  | Ok vals => length vals = length reqparms
  | Err e =>
      e = not_same_parameter
      \/ e = unsuported_datatype
      \/ exists item err,
           item ∈ reqparms /\ NewValue eng (Value item) = inr err
           /\ e = wrapped err
  | Fault p =>
      p = IndexOutOfRange (length parmTypes) (length parmTypes)
      /\ (length parmTypes < length reqparms)%nat
  end.
Proof.
  unfold convertRequestParametersToV8Parameters.
  destruct (convert_from eng parmTypes 0 reqparms []) as [vals|e|p] eqn:H.
  - apply convert_from_length in H. exact H.
  - exact (convert_from_error _ _ _ _ _ _ H).
  - apply convert_from_fault in H; [exact H|lia].
Qed.

End MarshalFailure.
